(** * Retail planning dashboard: the SKU directory and the planning view

    A shallow embedding of the two React components of the front end,
    [frontend/src/pages/SKUs.tsx] and the planning page, together with the
    properties stated about them.

    - [JS]        the few JavaScript built-ins the components rely on
                  ([String.prototype.includes], [Array.prototype.slice],
                  [Math.ceil] of a quotient, truthiness, [a || b]).
    - [Act]       a small state / exception / output monad in which the
                  synchronous segments of the handlers are written.
    - [SKUs]      the SKU directory.
    - [Planning]  the store selector and the planning view, as an event-driven
                  transition system.
    - [SKUsPage]  what the SKU directory renders, and the page as an
                  event-driven transition system.
    - [PlanningRuns]  what every run of the planning page keeps.
    - [Sidebar]   the navigation sidebar. *)

From Stdlib Require Import List ZArith Lia Bool String Ascii QArith_base.
Import ListNotations.

Set Warnings "-register-all".

Local Open Scope string_scope.
Local Open Scope list_scope.
Local Open Scope Z_scope.

(* ================================================================== *)
(** * JavaScript built-ins                                             *)
(* ================================================================== *)

Module JS.

(** A JavaScript string is a sequence of code units; [string] plays that
    role, one [ascii] per code unit. *)

(** [s.includes(t)]: [t] occurs in [s] as a contiguous run of code units. *)
Fixpoint includes (s t : string) : bool :=
  if String.prefix t s then true
  else match s with
       | EmptyString => false
       | String _ s' => includes s' t
       end.

(** [String.prototype.toLowerCase] restricted to the ASCII letters; used to
    run the components on concrete labels.  The components themselves are
    stated over an arbitrary case-folding function. *)
Definition lower_ascii (c : ascii) : ascii :=
  let n := nat_of_ascii c in
  if andb (Nat.leb 65 n) (Nat.leb n 90) then ascii_of_nat (n + 32) else c.

Fixpoint toLowerCase_ascii (s : string) : string :=
  match s with
  | EmptyString => EmptyString
  | String c s' => String (lower_ascii c) (toLowerCase_ascii s')
  end.

(** [l.slice(start, end)] (ECMA-262, Array.prototype.slice): a negative index
    counts from the end of the array, both indices are clamped to
    [0 .. length], and the result is empty when [end] is not after [start]. *)
Definition slice {A : Type} (l : list A) (start end_ : Z) : list A :=
  let len := Z.of_nat (List.length l) in
  let k := if start <? 0 then Z.max (len + start) 0 else Z.min start len in
  let final := if end_ <? 0 then Z.max (len + end_) 0 else Z.min end_ len in
  firstn (Z.to_nat (final - k)) (skipn (Z.to_nat k) l).

(** [Math.ceil(n / d)] for integers [n] and [d > 0]: the least integer that is
    at least the quotient.  (For an array length [n < 2^32] and [d = 10] the
    floating-point quotient is either exact or at distance at least 1/10 from
    every integer, so rounding never changes its ceiling.) *)
Definition ceil_div (n d : Z) : Z := - ((- n) / d).

(** A non-primitive value as the components see it in a response body:
    [undefined], [null], an array of records, or an object with named
    properties. *)
Inductive value (A : Type) : Type :=
| Undefined
| Null
| Arr (l : list A)
| Obj (props : list (string * value A)).

Arguments Undefined {A}.
Arguments Null {A}.
Arguments Arr {A} l.
Arguments Obj {A} props.

(** Truthiness: every array and every object is truthy, the empty array
    included. *)
Definition truthy {A} (v : value A) : bool :=
  match v with
  | Undefined | Null => false
  | Arr _ | Obj _ => true
  end.

(** [a || b] *)
Definition or {A} (a b : value A) : value A := if truthy a then a else b.

Fixpoint assoc {B} (k : string) (props : list (string * B)) : option B :=
  match props with
  | [] => None
  | (k', v) :: rest => if String.eqb k k' then Some v else assoc k rest
  end.

(** [v.name] for a property name that is not an array index or [length]:
    a TypeError on [undefined] and [null] (here [None]), [undefined] when the
    property is absent. *)
Definition get {A} (v : value A) (name : string) : option (value A) :=
  match v with
  | Undefined | Null => None
  | Arr _ => Some Undefined
  | Obj props => Some (match assoc name props with
                       | Some x => x
                       | None => Undefined
                       end)
  end.

(** A string is truthy unless it is empty. *)
Definition truthy_string (s : string) : bool :=
  match s with
  | EmptyString => false
  | String _ _ => true
  end.

End JS.

(* ================================================================== *)
(** * Handlers as computations                                         *)
(* ================================================================== *)

(** What a handler does to the world outside the component state: an HTTP
    request handed to axios, a console line, a toast, a form reset. *)
Inductive effect (R : Type) : Type :=
| Http (r : R)
| ConsoleLog (msg arg : string)
| ConsoleError (msg : string)
| ToastSuccess (msg : string)
| ToastError (msg : string)
| FormReset.

Arguments Http {R} r.
Arguments ConsoleLog {R} msg arg.
Arguments ConsoleError {R} msg.
Arguments ToastSuccess {R} msg.
Arguments ToastError {R} msg.
Arguments FormReset {R}.

(** How an awaited promise settles. *)
Inductive outcome (D : Type) : Type :=
| Fulfilled (data : D)
| Rejected.

Arguments Fulfilled {D} data.
Arguments Rejected {D}.

Module Act.

(** A statement list either runs to its end or throws. *)
Inductive completion (A : Type) : Type :=
| Normal (a : A)
| Throw (message : string).

Arguments Normal {A} a.
Arguments Throw {A} message.

Section Monad.

Variables S R : Type.

(** A synchronous stretch of handler code: from the component state to a
    completion, the state it leaves and the effects it emitted, in order. *)
Definition M (A : Type) : Type := S -> completion A * S * list (effect R).

Definition ret {A} (a : A) : M A := fun s => (Normal a, s, []).

Definition bind {A B} (m : M A) (k : A -> M B) : M B :=
  fun s =>
    match m s with
    | (Normal a, s1, out1) =>
        match k a s1 with
        | (c, s2, out2) => (c, s2, out1 ++ out2)
        end
    | (Throw e, s1, out1) => (Throw e, s1, out1)
    end.

Definition throw {A} (message : string) : M A :=
  fun s => (Throw message, s, []).

Definition emit (e : effect R) : M unit := fun s => (Normal tt, s, [e]).

Definition read : M S := fun s => (Normal s, s, []).

Definition update (f : S -> S) : M unit := fun s => (Normal tt, f s, []).

(** [try { body } catch { handler }] *)
Definition try_catch {A} (body : M A) (handler : M A) : M A :=
  fun s =>
    match body s with
    | (Normal a, s1, out1) => (Normal a, s1, out1)
    | (Throw _, s1, out1) =>
        match handler s1 with
        | (c, s2, out2) => (c, s2, out1 ++ out2)
        end
    end.

(** [try { body } finally { fin }]: [fin] runs on both exits; a throw of
    [fin] replaces the completion of [body]. *)
Definition try_finally {A} (body : M A) (fin : M unit) : M A :=
  fun s =>
    match body s with
    | (c, s1, out1) =>
        match fin s1 with
        | (Normal _, s2, out2) => (c, s2, out1 ++ out2)
        | (Throw e, s2, out2) => (Throw e, s2, out1 ++ out2)
        end
    end.

(** The value of [await p] once [p] has settled. *)
Definition await {D} (o : outcome D) : M D :=
  match o with
  | Fulfilled data => ret data
  | Rejected => throw "request failed"
  end.

(** A property read that throws a TypeError on [undefined] and [null]. *)
Definition prop {A} (v : JS.value A) (name : string) : M (JS.value A) :=
  match JS.get v name with
  | Some x => ret x
  | None => throw "TypeError"
  end.

Definition completion_of {A} (r : completion A * S * list (effect R)) :=
  fst (fst r).
Definition state_of {A} (r : completion A * S * list (effect R)) : S :=
  snd (fst r).
Definition effects_of {A} (r : completion A * S * list (effect R)) :=
  snd r.

End Monad.

Arguments ret {S R A} a.
Arguments bind {S R A B} m k.
Arguments throw {S R A} message.
Arguments emit {S R} e.
Arguments read {S R}.
Arguments update {S R} f.
Arguments try_catch {S R A} body handler.
Arguments try_finally {S R A} body fin.
Arguments await {S R D} o.
Arguments prop {S R A} v name.
Arguments completion_of {S R A} r.
Arguments state_of {S R A} r.
Arguments effects_of {S R A} r.

Definition is_request {R} (e : effect R) : bool :=
  match e with Http _ => true | _ => false end.

Definition is_toast {R} (e : effect R) : bool :=
  match e with ToastSuccess _ | ToastError _ => true | _ => false end.

Definition is_error_toast {R} (e : effect R) : bool :=
  match e with ToastError _ => true | _ => false end.

Definition is_console_error {R} (e : effect R) : bool :=
  match e with ConsoleError _ => true | _ => false end.

Definition requests {R} (out : list (effect R)) : list R :=
  flat_map (fun e => match e with Http r => [r] | _ => [] end) out.

End Act.

Declare Scope act_scope.
Delimit Scope act_scope with act.
Notation "x <- m ;; k" := (Act.bind m (fun x => k))
    (at level 61, m at next level, right associativity) : act_scope.
Notation "m ;; k" := (Act.bind m (fun _ => k))
    (at level 61, right associativity) : act_scope.

(* ================================================================== *)
(** * The SKU directory: filtering and pagination                      *)
(* ================================================================== *)

Module SKUs.

(** [iSKU], after the [SKUs] model of the schema.  [price] and [cost] are
    finite floating-point numbers, each of which is a rational. *)
Record iSKU : Type := mkSKU {
  id : string;
  label : string;
  class : string;
  department : string;
  price : Q;
  cost : Q
}.

Definition itemsPerPage : Z := 10.

Section Directory.

(** [String.prototype.toLowerCase] of the runtime. *)
Variable toLowerCase : string -> string.

(** [const totalPages = Math.ceil(allSKUs.length / itemsPerPage)] *)
Definition totalPages (allSKUs : list iSKU) : Z :=
  JS.ceil_div (Z.of_nat (List.length allSKUs)) itemsPerPage.

(** The predicate of the [filter] call of [getCurrentPageData]. *)
Definition matches (searchQuery : string) (store : iSKU) : bool :=
  JS.includes (toLowerCase (label store)) (toLowerCase searchQuery).

Definition filteredStores (allSKUs : list iSKU) (searchQuery : string)
  : list iSKU :=
  filter (matches searchQuery) allSKUs.

(** [getCurrentPageData], with the state it closes over as arguments. *)
Definition getCurrentPageData
           (allSKUs : list iSKU) (searchQuery : string) (currentPage : Z)
  : list iSKU :=
  let filteredStores := filter (matches searchQuery) allSKUs in
  let startIndex := (currentPage - 1) * itemsPerPage in
  JS.slice filteredStores startIndex (startIndex + itemsPerPage).

(** The specification's reading of the filter: the lower-cased label
    contains the lower-cased query as a substring. *)
Definition label_contains (searchQuery : string) (sku : iSKU) : Prop :=
  exists pre post,
    toLowerCase (label sku)
    = String.append pre (String.append (toLowerCase searchQuery) post).

(** The specification's reading of the page: entry [i] of page [p] is the
    entry of the filtered list at position [(p - 1) * size + i], for
    [i < size]. *)
Definition spec_page (filtered : list iSKU) (p : Z) (i : nat)
  : option iSKU :=
  if Z.of_nat i <? itemsPerPage
  then nth_error filtered (Z.to_nat ((p - 1) * itemsPerPage) + i)
  else None.

End Directory.

(** ** The component: state, requests and handlers *)

(** The values of the add-SKU form as react-hook-form hands them over: the
    two numeric inputs still as text. *)
Record iSKUFormData : Type := mkForm {
  form_id : string;
  form_label : string;
  form_class : string;
  form_department : string;
  form_price : string;
  form_cost : string
}.

(** The state hooks of the component. *)
Record State : Type := mkState {
  allSKUs : JS.value iSKU;
  loading : bool;
  currentPage : Z;
  searchQuery : string;
  isDrawerOpen : bool
}.

(** The state of the first render. *)
Definition initial : State :=
  {| allSKUs := JS.Arr [];
     loading := true;
     currentPage := 1;
     searchQuery := "";
     isDrawerOpen := false |}.

Definition setAllSKUs (v : JS.value iSKU) (s : State) : State :=
  {| allSKUs := v; loading := loading s; currentPage := currentPage s;
     searchQuery := searchQuery s; isDrawerOpen := isDrawerOpen s |}.

Definition setLoading (b : bool) (s : State) : State :=
  {| allSKUs := allSKUs s; loading := b; currentPage := currentPage s;
     searchQuery := searchQuery s; isDrawerOpen := isDrawerOpen s |}.

Definition setCurrentPage (p : Z) (s : State) : State :=
  {| allSKUs := allSKUs s; loading := loading s; currentPage := p;
     searchQuery := searchQuery s; isDrawerOpen := isDrawerOpen s |}.

Definition setSearchQuery (q : string) (s : State) : State :=
  {| allSKUs := allSKUs s; loading := loading s; currentPage := currentPage s;
     searchQuery := q; isDrawerOpen := isDrawerOpen s |}.

Definition setIsDrawerOpen (b : bool) (s : State) : State :=
  {| allSKUs := allSKUs s; loading := loading s; currentPage := currentPage s;
     searchQuery := searchQuery s; isDrawerOpen := b |}.

(** The three network calls of the page. *)
Inductive request : Type :=
| GetSkus
| PostSku (body : iSKU)
| DeleteSku (id : string).

Definition url (r : request) : string :=
  match r with
  | GetSkus | PostSku _ => "http://localhost:4000/skus"
  | DeleteSku i => String.append "http://localhost:4000/skus/" i
  end.

Definition M := Act.M State request.

Local Open Scope act_scope.

Section Handlers.

(** The global [parseFloat]. *)
Variable parseFloat : string -> Q.

(** Every handler that awaits a request is cut at the [await]: [_begin] runs
    up to the call of axios, [_resume] from the settling of the promise to
    the end of the function. *)

(** [fetchSKU] up to [await axios.get(...)] *)
Definition fetchSKU_begin : M unit :=
  Act.update (setLoading true) ;;
  Act.emit (Http GetSkus).

(** [fetchSKU] from the settled GET on: the rest of the [try] block, the
    [catch], the [finally]. *)
Definition fetchSKU_resume (o : outcome (JS.value iSKU)) : M unit :=
  Act.try_finally
    (Act.try_catch
       (data <- Act.await o ;;
        skus <- Act.prop data "skus" ;;
        Act.update (setAllSKUs (JS.or skus data)))
       (Act.emit (ConsoleError "Error fetching SKU:")))
    (Act.update (setLoading false)).

(** [onSubmit] up to the [await axios.post(...)] inside [createSKU] *)
Definition onSubmit_begin (data : iSKUFormData) : M unit :=
  let formattedData :=
    {| id := form_id data;
       label := form_label data;
       class := form_class data;
       department := form_department data;
       price := parseFloat (form_price data);
       cost := parseFloat (form_cost data) |} in
  Act.emit (Http (PostSku formattedData)).

(** [createSKU] from the settled POST on. *)
Definition createSKU_resume (o : outcome (JS.value iSKU))
  : M (JS.value iSKU) :=
  Act.try_catch
    (response_data <- Act.await o ;;
     Act.emit (ToastSuccess "SKU added successfully") ;;
     Act.ret response_data)
    (Act.emit (ConsoleError "Error adding SKU:") ;;
     Act.throw "Failed to add SKU").

(** [onSubmit] from the settled POST on; the refetch it starts is not
    awaited. *)
Definition onSubmit_resume (o : outcome (JS.value iSKU)) : M unit :=
  Act.try_catch
    (createSKU_resume o ;;
     Act.update (setIsDrawerOpen false) ;;
     Act.emit FormReset ;;
     fetchSKU_begin)
    (Act.emit (ToastError "Failed to add SKU")).

(** [handleDelete] up to [await axios.delete(...)] *)
Definition handleDelete_begin (id : string) : M unit :=
  Act.emit (Http (DeleteSku id)).

(** [handleDelete] from the settled DELETE on; the refetch is started, not
    awaited, and the success toast follows at once. *)
Definition handleDelete_resume (o : outcome (JS.value iSKU)) : M unit :=
  Act.try_catch
    (Act.await o ;;
     fetchSKU_begin ;;
     Act.emit (ToastSuccess "SKU deleted successfully"))
    (Act.emit (ConsoleError "Error deleting SKU:") ;;
     Act.emit (ToastError "Failed to delete SKU")).

Definition handlePageChange (page : Z) : M unit :=
  Act.update (setCurrentPage page).

(** The continuation that the settling of a request runs. *)
Definition resume (r : request) (o : outcome (JS.value iSKU)) : M unit :=
  match r with
  | GetSkus => fetchSKU_resume o
  | PostSku _ => onSubmit_resume o
  | DeleteSku _ => handleDelete_resume o
  end.

End Handlers.

(** A failing call handled the way the error-handling contract words it:
    the handler ends normally (the error is caught and swallowed), some toast
    is shown, and no request is issued again. *)
Definition failure_toasted (r : request) (s : State) : Prop :=
  let res := resume r Rejected s in
  Act.completion_of res = Act.Normal tt
  /\ existsb Act.is_toast (Act.effects_of res) = true
  /\ Act.requests (Act.effects_of res) = [].

(** The state a handler leaves differs from the one it found at most in
    [loading], which is false. *)
Definition only_loading_reset (before after : State) : Prop :=
  allSKUs after = allSKUs before
  /\ loading after = false
  /\ currentPage after = currentPage before
  /\ searchQuery after = searchQuery before
  /\ isDrawerOpen after = isDrawerOpen before.

End SKUs.

(* ================================================================== *)
(** * The planning page: store selector and planning view              *)
(* ================================================================== *)

Module Planning.

Record Store : Type := mkStore {
  id : string;
  label : string;
  city : string;
  state : string
}.

(** A planning row, after the [Planning] model of the schema. *)
Record PlanningRow : Type := mkRow {
  row_id : Z;
  store : string;
  sku : string;
  week : string;
  salesUnits : Z
}.

Definition Store_eqb (a b : Store) : bool :=
  String.eqb (id a) (id b) && String.eqb (label a) (label b)
  && String.eqb (city a) (city b) && String.eqb (state a) (state b).

(** The state hooks of the component. *)
Record State : Type := mkState {
  open : bool;
  value : string;
  stores : JS.value Store;
  loading : bool;
  skuData : JS.value PlanningRow
}.

(** The state of the first render. *)
Definition initial : State :=
  {| open := false;
     value := "";
     stores := JS.Arr [];
     loading := true;
     skuData := JS.Arr [] |}.

Definition setOpen (b : bool) (s : State) : State :=
  {| open := b; value := value s; stores := stores s;
     loading := loading s; skuData := skuData s |}.

Definition setValue (v : string) (s : State) : State :=
  {| open := open s; value := v; stores := stores s;
     loading := loading s; skuData := skuData s |}.

Definition setStores (v : JS.value Store) (s : State) : State :=
  {| open := open s; value := value s; stores := v;
     loading := loading s; skuData := skuData s |}.

Definition setLoading (b : bool) (s : State) : State :=
  {| open := open s; value := value s; stores := stores s;
     loading := b; skuData := skuData s |}.

Definition setSkuData (v : JS.value PlanningRow) (s : State) : State :=
  {| open := open s; value := value s; stores := stores s;
     loading := loading s; skuData := v |}.

Inductive request : Type :=
| GetStores
| GetPlanning (storeId : string).

Definition url (r : request) : string :=
  match r with
  | GetStores => "http://localhost:4000/stores"
  | GetPlanning storeId =>
      String.append "http://localhost:4000/planning/" storeId
  end.

Definition request_eqb (a b : request) : bool :=
  match a, b with
  | GetStores, GetStores => true
  | GetPlanning x, GetPlanning y => String.eqb x y
  | _, _ => false
  end.

Definition M := Act.M State request.

Local Open Scope act_scope.

(** ** Handlers and effects *)

(** [fetchStores] up to [await axios.get(...)] *)
Definition fetchStores_begin : M unit :=
  Act.update (setLoading true) ;;
  Act.emit (Http GetStores).

(** [fetchStores] from the settled GET on. *)
Definition fetchStores_resume (o : outcome (JS.value Store)) : M unit :=
  Act.try_finally
    (Act.try_catch
       (data <- Act.await o ;;
        data_stores <- Act.prop data "stores" ;;
        Act.update (setStores (JS.or data_stores data)))
       (Act.emit (ConsoleError "Error fetching stores:")))
    (Act.update (setLoading false)).

(** [fetchPlanningData] up to [await axios.get(...)] *)
Definition fetchPlanningData_begin (storeId : string) : M unit :=
  Act.update (setLoading true) ;;
  Act.emit (Http (GetPlanning storeId)).

(** [fetchPlanningData] from the settled GET on. *)
Definition fetchPlanningData_resume (o : outcome (JS.value PlanningRow))
  : M unit :=
  Act.try_finally
    (Act.try_catch
       (data <- Act.await o ;;
        Act.update (setSkuData data))
       (Act.emit (ConsoleError "Error fetching planning data:")))
    (Act.update (setLoading false)).

(** The body of [useEffect(..., [value])]. *)
Definition valueEffect : M unit :=
  s <- Act.read ;;
  if JS.truthy_string (value s)
  then fetchPlanningData_begin (value s)
  else Act.ret tt.

(** The [onSelect] callback of the item rendered for [store], called with
    [currentValue]. *)
Definition onSelect (store : Store) (currentValue : string) : M unit :=
  s <- Act.read ;;
  Act.update
    (setValue (if String.eqb currentValue (value s) then "" else currentValue)) ;;
  Act.update (setOpen false) ;;
  Act.emit (ConsoleLog "Selected Store ID:" (id store)).

(** ** What is rendered *)

(** The first child of the fragment: the loading line, or the combobox with
    the text of its button, its open flag and the items of its list. *)
Inductive Selector : Type :=
| LoadingStores
| Combobox (button : option string) (is_open : bool) (items : list Store).

(** The second child: the planning table fed with [skuData], or the
    placeholder text. *)
Inductive Body : Type :=
| PlanningSKU (skuData : JS.value PlanningRow)
| Text (t : string).

Record View : Type := mkView {
  selector : Selector;
  body : Body
}.

(** [stores.find((store) => store.id === value)?.label] *)
Definition selectedLabel (l : list Store) (v : string) : option string :=
  option_map label (find (fun store => String.eqb (id store) v) l).

(** The selector part; [None] when evaluating it throws ([stores] is not an
    array, so it has neither [find] nor [map]). *)
Definition renderSelector (s : State) : option Selector :=
  if loading s then Some LoadingStores
  else match stores s with
       | JS.Arr l =>
           Some (Combobox (if JS.truthy_string (value s)
                           then selectedLabel l (value s)
                           else Some "Select store...")
                          (open s) l)
       | _ => None
       end.

Definition renderBody (s : State) : Body :=
  if JS.truthy_string (value s)
  then PlanningSKU (skuData s)
  else Text "Select a store".

Definition render (s : State) : option View :=
  option_map (fun sel => mkView sel (renderBody s)) (renderSelector s).

(** ** The mounted component as a transition system *)

(** The component state together with the requests that have been handed to
    axios and have not settled yet, oldest first. *)
Record System : Type := mkSystem {
  comp : State;
  inflight : list request
}.

(** What can happen to a mounted component: the popover is opened or closed,
    an item of the list is chosen, a request settles. *)
Inductive event : Type :=
| OpenChange (b : bool)
| Select (store : Store)
| StoresSettled (o : outcome (JS.value Store))
| PlanningSettled (storeId : string) (o : outcome (JS.value PlanningRow)).

(** Run a synchronous stretch of code on the component; the requests it
    issues join the in-flight ones. *)
Definition run (m : M unit) (sys : System) : System :=
  let r := m (comp sys) in
  {| comp := Act.state_of r;
     inflight := inflight sys ++ Act.requests (Act.effects_of r) |}.

Fixpoint remove_first (r : request) (l : list request) : list request :=
  match l with
  | [] => []
  | x :: rest => if request_eqb r x then rest else x :: remove_first r rest
  end.

Definition settle (r : request) (sys : System) : System :=
  {| comp := comp sys; inflight := remove_first r (inflight sys) |}.

(** Mounting: the first render, then the two effects in the order of their
    declaration. *)
Definition init : System :=
  run valueEffect (run fetchStores_begin {| comp := initial; inflight := [] |}).

(** An event can only reach a handler that is rendered: the trigger and the
    items exist only in the branch taken when [loading] is false, the items
    only while the popover is open; a request settles only while in flight. *)
Definition enabled (sys : System) (ev : event) : bool :=
  match ev with
  | OpenChange _ =>
      match renderSelector (comp sys) with
      | Some (Combobox _ _ _) => true
      | _ => false
      end
  | Select store =>
      match renderSelector (comp sys) with
      | Some (Combobox _ true items) => existsb (Store_eqb store) items
      | _ => false
      end
  | StoresSettled _ => existsb (request_eqb GetStores) (inflight sys)
  | PlanningSettled storeId _ =>
      existsb (request_eqb (GetPlanning storeId)) (inflight sys)
  end.

(** The handler of an event, followed by the [value] effect when the render
    that follows sees a changed [value]. *)
Definition step (sys : System) (ev : event) : System :=
  match ev with
  | OpenChange b => run (Act.update (setOpen b)) sys
  | Select store =>
      let sys1 := run (onSelect store (id store)) sys in
      if String.eqb (value (comp sys)) (value (comp sys1))
      then sys1
      else run valueEffect sys1
  | StoresSettled o => run (fetchStores_resume o) (settle GetStores sys)
  | PlanningSettled storeId o =>
      run (fetchPlanningData_resume o) (settle (GetPlanning storeId) sys)
  end.

Fixpoint exec (sys : System) (tr : list event) : option System :=
  match tr with
  | [] => Some sys
  | ev :: rest => if enabled sys ev then exec (step sys ev) rest else None
  end.

Definition is_select (ev : event) : bool :=
  match ev with Select _ => true | _ => false end.

(** No item is chosen anywhere in the trace. *)
Definition no_select (tr : list event) : bool :=
  forallb (fun ev => negb (is_select ev)) tr.

(** Every planning fetch that settles in the trace is fulfilled, with the rows
    the back end holds for the store it was issued for. *)
Definition planning_fulfilled
           (rows_of : string -> JS.value PlanningRow) (tr : list event) : Prop :=
  forall storeId o,
    In (PlanningSettled storeId o) tr -> o = Fulfilled (rows_of storeId).

(** While a request is in flight the selector is replaced by the loading
    line; at most one request is in flight. *)
Definition serial (sys : System) : Prop :=
  (loading (comp sys) = false -> inflight sys = [])
  /\ (List.length (inflight sys) <= 1)%nat.

(** Store [storeId] is selected, and either its fetch is the one request in
    flight or nothing is in flight and its rows are held. *)
Definition settling (rows_of : string -> JS.value PlanningRow)
           (storeId : string) (sys : System) : Prop :=
  value (comp sys) = storeId
  /\ (loading (comp sys) = true /\ inflight sys = [GetPlanning storeId]
      \/ inflight sys = [] /\ skuData (comp sys) = rows_of storeId).

End Planning.


(* ================================================================== *)
(** * The SKU directory: what is rendered, and the page as a system    *)
(* ================================================================== *)

Module SKUsPage.

Import SKUs.

(** A row of the table: the number in the [#] column and the SKU. *)
Record Row : Type := mkRow {
  number : Z;
  shown : iSKU
}.

(** A numbered pagination button and whether it is drawn as the current
    page ([variant = "default"]). *)
Record PageButton : Type := mkButton {
  page : Z;
  highlighted : bool
}.

(** What the component returns: the loading line, or the directory. *)
Inductive View : Type :=
| LoadingSKUs
| Directory (search_value : string) (drawer_open : bool)
            (rows : list Row) (buttons : list PageButton)
            (previous_disabled next_disabled : bool).

(** [currentSKUs.map((sku, index) => ...)]: the [#] cell holds
    [(currentPage - 1) * itemsPerPage + index + 1]. *)
Fixpoint number_rows (currentSKUs : list iSKU) (index : Z) (currentPage : Z)
  : list Row :=
  match currentSKUs with
  | [] => []
  | sku :: rest =>
      {| number := (currentPage - 1) * itemsPerPage + index + 1;
         shown := sku |}
      :: number_rows rest (index + 1) currentPage
  end.

(** [[...Array(totalPages)].map((_, index) => ...)]: one button per index,
    labelled [index + 1]. *)
Definition page_buttons (totalPages currentPage : Z) : list PageButton :=
  map (fun index =>
         {| page := Z.of_nat index + 1;
            highlighted := currentPage =? Z.of_nat index + 1 |})
      (seq 0 (Z.to_nat totalPages)).

Section Page.

Variable toLowerCase : string -> string.
Variable parseFloat : string -> Q.

(** The body of the component from [totalPages] to the returned JSX; [None]
    when it throws: reading [length] of [undefined] or [null], or calling
    [filter] on something that is not an array. *)
Definition render (s : State) : option View :=
  match allSKUs s with
  | JS.Undefined | JS.Null => None
  | JS.Obj _ => if loading s then Some LoadingSKUs else None
  | JS.Arr l =>
      if loading s then Some LoadingSKUs
      else
        let currentSKUs :=
          getCurrentPageData toLowerCase l (searchQuery s) (currentPage s) in
        Some (Directory
                (searchQuery s) (isDrawerOpen s)
                (number_rows currentSKUs 0 (currentPage s))
                (page_buttons (totalPages l) (currentPage s))
                (currentPage s =? 1)
                (currentPage s =? totalPages l))
  end.

(** The component state together with the requests handed to axios that have
    not settled yet, oldest first. *)
Record System : Type := mkSystem {
  comp : State;
  inflight : list request
}.

(** What can happen to the mounted page. *)
Inductive event : Type :=
| TypeSearch (q : string)
| ClickPrevious
| ClickNext
| ClickPage (n : Z)
| ClickDelete (id : string)
| DrawerChange (b : bool)
| Submit (data : iSKUFormData)
| Settled (n : nat) (o : outcome (JS.value iSKU)).

Definition run (m : M unit) (sys : System) : System :=
  let r := m (comp sys) in
  {| comp := Act.state_of r;
     inflight := inflight sys ++ Act.requests (Act.effects_of r) |}.

Fixpoint remove_nth (n : nat) (l : list request) : list request :=
  match n, l with
  | _, [] => []
  | O, _ :: rest => rest
  | S n', x :: rest => x :: remove_nth n' rest
  end.

(** Mounting: the first render, then the effect that calls [fetchSKU]. *)
Definition init : System :=
  run fetchSKU_begin {| comp := initial; inflight := [] |}.

(** Every field of the form is registered as required. *)
Definition form_complete (data : iSKUFormData) : bool :=
  JS.truthy_string (form_id data) && JS.truthy_string (form_label data)
  && JS.truthy_string (form_class data)
  && JS.truthy_string (form_department data)
  && JS.truthy_string (form_price data) && JS.truthy_string (form_cost data).

(** An event reaches a handler only through an element that is rendered and
    not disabled. *)
Definition enabled (sys : System) (ev : event) : bool :=
  match ev with
  | Settled n _ => Nat.ltb n (List.length (inflight sys))
  | _ =>
      match render (comp sys) with
      | Some (Directory _ drawer rows buttons previous_disabled next_disabled) =>
          match ev with
          | TypeSearch _ => true
          | ClickPrevious => negb previous_disabled
          | ClickNext => negb next_disabled
          | ClickPage n => existsb (fun b => page b =? n) buttons
          | ClickDelete i =>
              existsb (fun r => String.eqb (id (shown r)) i) rows
          | DrawerChange _ => true
          | Submit _ => drawer
          | Settled _ _ => false
          end
      | _ => false
      end
  end.

Definition step (sys : System) (ev : event) : System :=
  match ev with
  | TypeSearch q => run (Act.update (setSearchQuery q)) sys
  | ClickPrevious => run (handlePageChange (currentPage (comp sys) - 1)) sys
  | ClickNext => run (handlePageChange (currentPage (comp sys) + 1)) sys
  | ClickPage n => run (handlePageChange n) sys
  | ClickDelete i => run (handleDelete_begin i) sys
  | DrawerChange b => run (Act.update (setIsDrawerOpen b)) sys
  | Submit data =>
      if form_complete data then run (onSubmit_begin parseFloat data) sys
      else sys
  | Settled n o =>
      match nth_error (inflight sys) n with
      | Some r =>
          run (resume r o)
              {| comp := comp sys; inflight := remove_nth n (inflight sys) |}
      | None => sys
      end
  end.

Fixpoint exec (sys : System) (tr : list event) : option System :=
  match tr with
  | [] => Some sys
  | ev :: rest => if enabled sys ev then exec (step sys ev) rest else None
  end.

End Page.

(** The pages behind the first [n] numbered buttons, one after the other. *)
Definition pages_in_order (toLowerCase : string -> string)
           (allSKUs : list iSKU) (searchQuery : string) (n : nat)
  : list iSKU :=
  flat_map (fun index =>
              getCurrentPageData toLowerCase allSKUs searchQuery
                                 (Z.of_nat index + 1))
           (seq 0 n).

(** A value that is falsy, as the left operand of [||]. *)
Definition falsy_property {A} (v : JS.value A) (name : string) : Prop :=
  exists x, JS.get v name = Some x /\ JS.truthy x = false.

(** The page number is at least 1 and [allSKUs] is an array or an object. *)
Definition page_state_ok (sys : System) : Prop :=
  1 <= currentPage (comp sys)
  /\ JS.truthy (allSKUs (comp sys)) = true.

End SKUsPage.

(* ================================================================== *)
(** * The planning page: invariants of its runs                        *)
(* ================================================================== *)

Module PlanningRuns.

Import Planning.

(** Every planning fetch in flight is for the store that is selected, and
    that store has a non-empty id. *)
Definition fetches_selected (sys : System) : Prop :=
  forall storeId,
    In (GetPlanning storeId) (inflight sys) ->
    storeId = value (comp sys) /\ storeId <> "".

(** While the stores are still being fetched nothing is selected. *)
Definition stores_first (sys : System) : Prop :=
  In GetStores (inflight sys) -> value (comp sys) = "".

(** A selected store is one of the fetched stores, so the button of the
    combobox has its label to show. *)
Definition selection_listed (sys : System) : Prop :=
  value (comp sys) <> "" ->
  exists l store,
    stores (comp sys) = JS.Arr l
    /\ In store l
    /\ id store = value (comp sys)
    /\ selectedLabel l (value (comp sys)) = Some (label store).

(** Nothing is listed, nothing is selected and nothing is in flight. *)
Definition no_stores (sys : System) : Prop :=
  stores (comp sys) = JS.Arr []
  /\ value (comp sys) = ""
  /\ inflight sys = [].

(** What every run of the planning page keeps. *)
Definition run_invariant (sys : System) : Prop :=
  serial sys /\ fetches_selected sys /\ stores_first sys
  /\ selection_listed sys.

End PlanningRuns.

(* ================================================================== *)
(** * The sidebar                                                      *)
(* ================================================================== *)

Module Sidebar.

Record Route : Type := mkRoute {
  path : string;
  name : string;
  icon : string
}.

Definition routes : list Route :=
  [ {| path := "/store"; name := "Store"; icon := "Store" |};
    {| path := "/charts"; name := "Charts"; icon := "BarChart" |};
    {| path := "/planning"; name := "Planning"; icon := "Calendar" |};
    {| path := "/skus"; name := "SKUs"; icon := "Package" |} ].

(** [const isActive = location.pathname === route.path] *)
Definition isActive (pathname : string) (route : Route) : bool :=
  String.eqb pathname (path route).

(** An entry of the navigation as drawn: the target of its link, whether it
    is drawn as active, the label beside the icon (only when expanded) and
    the hover tooltip (only when collapsed). *)
Record Entry : Type := mkEntry {
  to : string;
  active : bool;
  text : option string;
  tooltip : option string
}.

Definition render (pathname : string) (isCollapsed : bool) : list Entry :=
  map (fun route =>
         {| to := path route;
            active := isActive pathname route;
            text := if negb isCollapsed then Some (name route) else None;
            tooltip := if isCollapsed then Some (name route) else None |})
      routes.

End Sidebar.

(* ================================================================== *)
(** * Sample data                                                      *)
(* ================================================================== *)

Module Sample.

Definition widget : SKUs.iSKU :=
  SKUs.mkSKU "S1" "Widget" "Tools" "Hardware" (20 # 1) (10 # 1).
Definition gadget : SKUs.iSKU :=
  SKUs.mkSKU "S2" "Gadget" "Tools" "Hardware" (30 # 1) (12 # 1).

Definition storeA : Planning.Store :=
  Planning.mkStore "ST035" "San Francisco Bay Trends" "San Francisco" "CA".
Definition storeB : Planning.Store :=
  Planning.mkStore "ST046" "Phoenix Sunwear" "Phoenix" "AZ".

Definition rowsA : JS.value Planning.PlanningRow :=
  JS.Arr [Planning.mkRow 1 "ST035" "S1" "W01" 5].
Definition rowsB : JS.value Planning.PlanningRow :=
  JS.Arr [Planning.mkRow 2 "ST046" "S2" "W01" 7].

Definition rows_of (storeId : string) : JS.value Planning.PlanningRow :=
  if String.eqb storeId "ST035" then rowsA
  else if String.eqb storeId "ST046" then rowsB
  else JS.Arr [].

(** A run of the planning page: the stores arrive, store A is chosen and its
    rows arrive, then store B is chosen and its rows arrive. *)
Definition before_A : list Planning.event :=
  [Planning.StoresSettled (Fulfilled (JS.Arr [storeA; storeB]));
   Planning.OpenChange true].
Definition between_A_and_B : list Planning.event :=
  [Planning.PlanningSettled "ST035" (Fulfilled rowsA);
   Planning.OpenChange true].
Definition after_B : list Planning.event :=
  [Planning.PlanningSettled "ST046" (Fulfilled rowsB)].

(** The planning page with store A selected and its rows loaded. *)
Definition showing_A : Planning.System :=
  {| Planning.comp :=
       {| Planning.open := true;
          Planning.value := "ST035";
          Planning.stores := JS.Arr [storeA; storeB];
          Planning.loading := false;
          Planning.skuData := rowsA |};
     Planning.inflight := [] |}.

(** The planning page with the stores listed and the popover open. *)
Definition choosing : Planning.System :=
  {| Planning.comp :=
       {| Planning.open := true;
          Planning.value := "";
          Planning.stores := JS.Arr [storeA; storeB];
          Planning.loading := false;
          Planning.skuData := JS.Arr [] |};
     Planning.inflight := [] |}.

(** The planning page right after store A has been chosen. *)
Definition loading_A : Planning.System :=
  {| Planning.comp :=
       {| Planning.open := false;
          Planning.value := "ST035";
          Planning.stores := JS.Arr [storeA; storeB];
          Planning.loading := true;
          Planning.skuData := JS.Arr [] |};
     Planning.inflight := [Planning.GetPlanning "ST035"] |}.

(** The planning page after the stores fetch has failed and the popover has
    been opened and closed. *)
Definition without_stores : Planning.System :=
  {| Planning.comp :=
       {| Planning.open := false;
          Planning.value := "";
          Planning.stores := JS.Arr [];
          Planning.loading := false;
          Planning.skuData := JS.Arr [] |};
     Planning.inflight := [] |}.

(** [parseFloat] on the texts used here, which are whole numbers written
    with one digit. *)
Definition parseFloat_digit (text : string) : Q :=
  match text with
  | String c EmptyString => inject_Z (Z.of_nat (nat_of_ascii c) - 48)
  | _ => inject_Z 0
  end.

(** A run of the SKU directory: the list arrives, "wid" is typed into the
    search box, the button of page 1 is pressed. *)
Definition directory_run : list SKUsPage.event :=
  [SKUsPage.Settled 0 (Fulfilled (JS.Arr [widget; gadget]));
   SKUsPage.TypeSearch "wid";
   SKUsPage.ClickPage 1].

(** Eleven SKUs, "Item A" to "Item K": two pages. *)
Definition eleven : list SKUs.iSKU :=
  map (fun n =>
         let letter := String (ascii_of_nat (65 + n)) EmptyString in
         SKUs.mkSKU letter (String.append "Item " letter)
                    "Tools" "Hardware" (20 # 1) (10 # 1))
      (seq 0 11).

(** The SKU directory on its second page. *)
Definition on_page_two : SKUsPage.System :=
  {| SKUsPage.comp :=
       {| SKUs.allSKUs := JS.Arr eleven;
          SKUs.loading := false;
          SKUs.currentPage := 2;
          SKUs.searchQuery := "";
          SKUs.isDrawerOpen := false |};
     SKUsPage.inflight := [] |}.

Definition directory_searched : SKUsPage.System :=
  {| SKUsPage.comp :=
       {| SKUs.allSKUs := JS.Arr [widget; gadget];
          SKUs.loading := false;
          SKUs.currentPage := 1;
          SKUs.searchQuery := "wid";
          SKUs.isDrawerOpen := false |};
     SKUsPage.inflight := [] |}.

End Sample.

(* ================================================================== *)
(** * Properties of the built-ins                                      *)
(* ================================================================== *)

Section BuiltIns.

Lemma prefix_append (t s : string) :
  String.prefix t s = true <-> exists post, s = String.append t post.
Proof.
  revert s; induction t as [|c t IH]; intros s; simpl.
  - split; [intros _; exists s; reflexivity | now destruct s].
  - destruct s as [|d s]; simpl.
    + split; [discriminate | intros [post H]; discriminate].
    + destruct (Ascii.ascii_dec c d) as [->|Hne].
      * rewrite IH. split; intros [post H]; exists post.
        -- now rewrite H.
        -- now inversion H.
      * split; [discriminate|].
        intros [post H]. inversion H. congruence.
Qed.

Lemma includes_unfold (s t : string) :
  JS.includes s t
  = if String.prefix t s then true
    else match s with
         | EmptyString => false
         | String _ s' => JS.includes s' t
         end.
Proof. destruct s; reflexivity. Qed.

(** [includes] decides the substring relation. *)
Lemma includes_spec (s t : string) :
  JS.includes s t = true
  <-> exists pre post, s = String.append pre (String.append t post).
Proof.
  induction s as [|c s IH]; rewrite includes_unfold.
  - destruct (String.prefix t "") eqn:Hp.
    + split; [intros _|reflexivity].
      apply prefix_append in Hp. destruct Hp as [post Hp].
      exists "", post. exact Hp.
    + split; [discriminate|].
      intros (pre & post & H).
      destruct pre; simpl in H; [|discriminate].
      assert (String.prefix t "" = true)
        by (apply prefix_append; now exists post).
      congruence.
  - destruct (String.prefix t (String c s)) eqn:Hp.
    + split; [intros _|reflexivity].
      apply prefix_append in Hp. destruct Hp as [post Hp].
      exists "", post. exact Hp.
    + rewrite IH. split.
      * intros (pre & post & H). exists (String c pre), post.
        simpl. now rewrite H.
      * intros (pre & post & H). destruct pre as [|d pre]; simpl in H.
        -- assert (String.prefix t (String c s) = true)
             by (apply prefix_append; now exists post).
           congruence.
        -- inversion H. now exists pre, post.
Qed.

Context {A : Type}.

Lemma Forall_firstn (P : A -> Prop) (n : nat) (l : list A) :
  Forall P l -> Forall P (firstn n l).
Proof.
  revert l; induction n as [|n IH]; intros [|x l] H; simpl; auto.
  inversion H; subst. constructor; auto.
Qed.

Lemma Forall_skipn (P : A -> Prop) (n : nat) (l : list A) :
  Forall P l -> Forall P (skipn n l).
Proof.
  revert l; induction n as [|n IH]; intros [|x l] H; simpl; auto.
  inversion H; subst. auto.
Qed.

(** A slice keeps whatever holds of every element of the array. *)
Lemma slice_Forall (P : A -> Prop) (l : list A) (start end_ : Z) :
  Forall P l -> Forall P (JS.slice l start end_).
Proof.
  intros H. unfold JS.slice. now apply Forall_firstn, Forall_skipn.
Qed.

(** A slice of width [n] has at most [n] elements, wherever it starts. *)
Lemma slice_length_le (l : list A) (start n : Z) :
  0 <= n ->
  (List.length (JS.slice l start (start + n)) <= Z.to_nat n)%nat.
Proof.
  intros Hn. unfold JS.slice. rewrite length_firstn.
  destruct (Z.ltb_spec start 0), (Z.ltb_spec (start + n) 0); lia.
Qed.

(** From a non-negative start, a slice is the window of positions
    [start <= i < end]. *)
Lemma slice_window (l : list A) (start end_ : Z) :
  0 <= start -> start <= end_ ->
  JS.slice l start end_
  = firstn (Z.to_nat (end_ - start)) (skipn (Z.to_nat start) l).
Proof.
  intros Hs He. unfold JS.slice.
  destruct (Z.ltb_spec start 0); [lia|].
  destruct (Z.ltb_spec end_ 0); [lia|].
  set (len := Z.of_nat (List.length l)).
  destruct (Z.le_gt_cases len start) as [Hout|Hin].
  - rewrite (skipn_all2 l (n := Z.to_nat (Z.min start len))) by lia.
    rewrite (skipn_all2 l (n := Z.to_nat start)) by lia.
    now rewrite !firstn_nil.
  - replace (Z.min start len) with start by lia.
    destruct (Z.le_gt_cases end_ len) as [Hfit|Hover].
    + now replace (Z.min end_ len) with end_ by lia.
    + replace (Z.min end_ len) with len by lia.
      rewrite !firstn_all2; auto; rewrite length_skipn; lia.
Qed.

Lemma ceil_div_mono (a b d : Z) :
  0 < d -> a <= b -> JS.ceil_div a d <= JS.ceil_div b d.
Proof.
  intros Hd Hab. unfold JS.ceil_div.
  assert (- b / d <= - a / d) by (apply Z.div_le_mono; lia).
  lia.
Qed.

(** [ceil_div] is the ceiling of the quotient. *)
Lemma ceil_div_spec (n d : Z) :
  0 < d ->
  n <= JS.ceil_div n d * d /\ (JS.ceil_div n d - 1) * d < n.
Proof.
  intros Hd. unfold JS.ceil_div.
  pose proof (Z.div_mod (- n) d ltac:(lia)) as Hdm.
  pose proof (Z.mod_pos_bound (- n) d Hd) as Hb.
  nia.
Qed.

End BuiltIns.

(* ================================================================== *)
(** * The SKU directory: pagination and search                         *)
(* ================================================================== *)

Section DirectoryFacts.

Variable toLowerCase : string -> string.

Local Abbreviation matches := (SKUs.matches toLowerCase).
Local Abbreviation filteredStores := (SKUs.filteredStores toLowerCase).
Local Abbreviation getCurrentPageData := (SKUs.getCurrentPageData toLowerCase).

Lemma matches_label_contains (q : string) (sku : SKUs.iSKU) :
  matches q sku = true <-> SKUs.label_contains toLowerCase q sku.
Proof. unfold SKUs.matches, SKUs.label_contains. apply includes_spec. Qed.

Lemma filteredStores_all_match (l : list SKUs.iSKU) (q : string) :
  Forall (fun sku => matches q sku = true) (filteredStores l q).
Proof.
  apply Forall_forall. intros sku Hin.
  now apply filter_In in Hin.
Qed.

(** C1 (amended): the page count is the ceiling of the number of all fetched
    SKUs over the page size, so it counts the SKUs that do not match the
    query along with those that do; it is therefore never smaller than the
    page count of the filtered list. *)
Theorem totalPages_counts_all_skus (l : list SKUs.iSKU) (q : string) :
  SKUs.totalPages l
  = JS.ceil_div
      (Z.of_nat (List.length (filteredStores l q))
       + Z.of_nat (List.length (filter (fun sku => negb (matches q sku)) l)))
      10
  /\ JS.ceil_div (Z.of_nat (List.length (filteredStores l q))) 10
     <= SKUs.totalPages l.
Proof.
  unfold SKUs.totalPages, SKUs.filteredStores, SKUs.itemsPerPage.
  pose proof (filter_length (matches q) l) as Hlen.
  split.
  - f_equal. lia.
  - apply ceil_div_mono; lia.
Qed.

(** C2: whatever the list, the query and the page number, the page has at
    most ten entries and each of them matches the query: its lower-cased
    label contains the lower-cased query as a substring. *)
Theorem page_bounded_and_matching
        (allSKUs : list SKUs.iSKU) (searchQuery : string) (currentPage : Z) :
  (List.length (getCurrentPageData allSKUs searchQuery currentPage) <= 10)%nat
  /\ Forall (fun sku => matches searchQuery sku = true
                        /\ SKUs.label_contains toLowerCase searchQuery sku)
            (getCurrentPageData allSKUs searchQuery currentPage).
Proof.
  unfold SKUs.getCurrentPageData. split.
  - apply (slice_length_le _ _ 10). lia.
  - apply slice_Forall.
    eapply Forall_impl; [|apply (filteredStores_all_match allSKUs searchQuery)].
    intros sku H. split; [exact H | now apply matches_label_contains].
Qed.

(** C3: for a page [p >= 1] the page data is
    [slice(filtered, (p-1)*10, p*10)], that is, entry [i < 10] of the page is
    entry [(p-1)*10 + i] of the filtered list, where the filtered list keeps,
    in order, exactly the SKUs whose lower-cased label contains the
    lower-cased query. *)
Theorem page_is_slice_of_filtered
        (allSKUs : list SKUs.iSKU) (searchQuery : string) (p : Z) :
  1 <= p ->
  getCurrentPageData allSKUs searchQuery p
  = JS.slice (filteredStores allSKUs searchQuery) ((p - 1) * 10) (p * 10)
  /\ (forall i,
         nth_error (getCurrentPageData allSKUs searchQuery p) i
         = SKUs.spec_page (filteredStores allSKUs searchQuery) p i)
  /\ (forall sku,
         In sku (filteredStores allSKUs searchQuery)
         <-> In sku allSKUs /\ SKUs.label_contains toLowerCase searchQuery sku).
Proof.
  intros Hp.
  assert (Heq : getCurrentPageData allSKUs searchQuery p
                = JS.slice (filteredStores allSKUs searchQuery)
                           ((p - 1) * 10) (p * 10)).
  { unfold SKUs.getCurrentPageData, SKUs.filteredStores, SKUs.itemsPerPage.
    f_equal. lia. }
  split; [exact Heq|]. split.
  - intros i. rewrite Heq, slice_window by lia.
    unfold SKUs.spec_page, SKUs.itemsPerPage.
    rewrite nth_error_firstn, nth_error_skipn.
    replace (Z.to_nat (p * 10 - (p - 1) * 10)) with 10%nat by lia.
    destruct (Nat.ltb_spec i 10), (Z.ltb_spec (Z.of_nat i) 10);
      try lia; reflexivity.
  - intros sku. unfold SKUs.filteredStores.
    rewrite filter_In, matches_label_contains. reflexivity.
Qed.

End DirectoryFacts.

(** C1, as worded, fails: with two SKUs and a query that matches neither,
    the filtered list is empty, so its page count is 0, while [totalPages]
    is 1. *)
Lemma totalPages_not_of_filtered :
  SKUs.filteredStores JS.toLowerCase_ascii
                      [Sample.widget; Sample.gadget] "zzz" = []
  /\ SKUs.totalPages [Sample.widget; Sample.gadget] = 1
  /\ SKUs.totalPages [Sample.widget; Sample.gadget]
     <> JS.ceil_div
          (Z.of_nat (List.length
             (SKUs.filteredStores JS.toLowerCase_ascii
                                  [Sample.widget; Sample.gadget] "zzz")))
          10.
Proof. repeat split. vm_compute. discriminate. Qed.

Lemma page_is_slice_of_filtered_witness :
  1 <= 1
  /\ (SKUs.getCurrentPageData JS.toLowerCase_ascii
                              [Sample.widget; Sample.gadget] "wid" 1
      = JS.slice (SKUs.filteredStores JS.toLowerCase_ascii
                                      [Sample.widget; Sample.gadget] "wid")
                 ((1 - 1) * 10) (1 * 10)
      /\ (forall i,
             nth_error (SKUs.getCurrentPageData JS.toLowerCase_ascii
                          [Sample.widget; Sample.gadget] "wid" 1) i
             = SKUs.spec_page (SKUs.filteredStores JS.toLowerCase_ascii
                                 [Sample.widget; Sample.gadget] "wid") 1 i)
      /\ (forall sku,
             In sku (SKUs.filteredStores JS.toLowerCase_ascii
                       [Sample.widget; Sample.gadget] "wid")
             <-> In sku [Sample.widget; Sample.gadget]
                 /\ SKUs.label_contains JS.toLowerCase_ascii "wid" sku)).
Proof.
  split; [lia|].
  apply (page_is_slice_of_filtered JS.toLowerCase_ascii
           [Sample.widget; Sample.gadget] "wid" 1).
  lia.
Defined.

(** The example of the specification: of Widget and Gadget, the search "wid"
    leaves only Widget on page 1. *)
Example search_wid_page_1 :
  SKUs.getCurrentPageData JS.toLowerCase_ascii
                          [Sample.widget; Sample.gadget] "wid" 1
  = [Sample.widget].
Proof. reflexivity. Qed.

(* ================================================================== *)
(** * The SKU directory: network calls                                 *)
(* ================================================================== *)

(** C7: a fulfilled GET /skus whose body is an object with an array under
    [skus], or a bare array, stores exactly that array in [allSKUs] (an empty
    array included, since an empty array is truthy). *)
Theorem fetchSKU_accepts_both_shapes
        (skus : list SKUs.iSKU) (props : list (string * JS.value SKUs.iSKU))
        (s : SKUs.State) :
  JS.assoc "skus" props = Some (JS.Arr skus) ->
  SKUs.allSKUs
    (Act.state_of (SKUs.fetchSKU_resume (Fulfilled (JS.Obj props)) s))
  = JS.Arr skus
  /\ SKUs.allSKUs
       (Act.state_of (SKUs.fetchSKU_resume (Fulfilled (JS.Arr skus)) s))
     = JS.Arr skus.
Proof.
  intros Hskus. split.
  - unfold SKUs.fetchSKU_resume, Act.try_finally, Act.try_catch, Act.bind,
      Act.await, Act.prop, Act.ret, Act.update, JS.get.
    rewrite Hskus. reflexivity.
  - reflexivity.
Qed.

Lemma fetchSKU_accepts_both_shapes_witness :
  JS.assoc "skus" [("skus", JS.Arr [Sample.widget; Sample.gadget])]
  = Some (JS.Arr [Sample.widget; Sample.gadget])
  /\ (SKUs.allSKUs
        (Act.state_of
           (SKUs.fetchSKU_resume
              (Fulfilled
                 (JS.Obj [("skus", JS.Arr [Sample.widget; Sample.gadget])]))
              SKUs.initial))
      = JS.Arr [Sample.widget; Sample.gadget]
      /\ SKUs.allSKUs
           (Act.state_of
              (SKUs.fetchSKU_resume
                 (Fulfilled (JS.Arr [Sample.widget; Sample.gadget]))
                 SKUs.initial))
         = JS.Arr [Sample.widget; Sample.gadget]).
Proof.
  split; [reflexivity|].
  apply (fetchSKU_accepts_both_shapes
           [Sample.widget; Sample.gadget]
           [("skus", JS.Arr [Sample.widget; Sample.gadget])]
           SKUs.initial).
  reflexivity.
Defined.

(** C9: when the SKU fetch fails (the request is rejected, or the body is
    [null] or [undefined] so that reading [data.skus] throws), [allSKUs] keeps
    the list it held, [loading] is reset to false, and no other piece of state
    changes. *)
Theorem fetchSKU_failure_keeps_list (s : SKUs.State) :
  SKUs.only_loading_reset s (Act.state_of (SKUs.fetchSKU_resume Rejected s))
  /\ SKUs.only_loading_reset
       s (Act.state_of (SKUs.fetchSKU_resume (Fulfilled JS.Null) s))
  /\ SKUs.only_loading_reset
       s (Act.state_of (SKUs.fetchSKU_resume (Fulfilled JS.Undefined) s)).
Proof. unfold SKUs.only_loading_reset. repeat split. Qed.

(** C5, as worded, fails for the fetch: a rejected GET /skus ends in a console
    line only, and no toast is shown. *)
Lemma fetch_failure_shows_no_toast :
  Act.effects_of (SKUs.resume SKUs.GetSkus Rejected SKUs.initial)
  = [ConsoleError "Error fetching SKU:"]
  /\ ~ SKUs.failure_toasted SKUs.GetSkus SKUs.initial.
Proof.
  split; [reflexivity|].
  intros (_ & Htoast & _). vm_compute in Htoast. discriminate.
Qed.

(** C5 (amended): every failing call of the SKU directory is caught where it
    is made: the handler ends normally, writes a line to the console and
    issues no request again.  A failing create or delete is reported with an
    error toast; a failing fetch is reported on the console only. *)
Theorem failures_caught_not_retried (r : SKUs.request) (s : SKUs.State) :
  let res := SKUs.resume r Rejected s in
  Act.completion_of res = Act.Normal tt
  /\ Act.requests (Act.effects_of res) = []
  /\ existsb Act.is_console_error (Act.effects_of res) = true
  /\ existsb Act.is_error_toast (Act.effects_of res)
     = match r with
       | SKUs.GetSkus => false
       | SKUs.PostSku _ | SKUs.DeleteSku _ => true
       end
  /\ existsb Act.is_toast (Act.effects_of res)
     = match r with
       | SKUs.GetSkus => false
       | SKUs.PostSku _ | SKUs.DeleteSku _ => true
       end.
Proof. destruct r; repeat split. Qed.

(** What each failing call emits, in order. *)
Lemma failure_effects (s : SKUs.State) (body : SKUs.iSKU) (id : string) :
  Act.effects_of (SKUs.resume SKUs.GetSkus Rejected s)
  = [ConsoleError "Error fetching SKU:"]
  /\ Act.effects_of (SKUs.resume (SKUs.PostSku body) Rejected s)
     = [ConsoleError "Error adding SKU:"; ToastError "Failed to add SKU"]
  /\ Act.effects_of (SKUs.resume (SKUs.DeleteSku id) Rejected s)
     = [ConsoleError "Error deleting SKU:"; ToastError "Failed to delete SKU"].
Proof. repeat split. Qed.

(* ================================================================== *)
(** * The planning page                                                *)
(* ================================================================== *)

Section PlanningFacts.

Import Planning.

(** C8: choosing an item toggles the selection: called with the id that is
    already selected, [onSelect] clears the selection to the empty string;
    called with any other id, it selects that id.  Either way the popover is
    closed and nothing else changes. *)
Theorem onSelect_toggles (s : State) (store : Store) (currentValue : string) :
  Act.state_of (onSelect store currentValue s)
  = setOpen false
      (setValue (if String.eqb currentValue (value s) then "" else currentValue)
                s)
  /\ value (Act.state_of (onSelect store currentValue s))
     = (if String.eqb currentValue (value s) then "" else currentValue)
  /\ value (Act.state_of (onSelect store (value s) s)) = "".
Proof.
  repeat split. simpl. now rewrite String.eqb_refl.
Qed.

(** C6: with no store selected, the view shows the "Select a store"
    placeholder and the effect on [value] issues no request and leaves the
    state as it is. *)
Theorem no_store_no_fetch (s : State) :
  value s = "" ->
  renderBody s = Text "Select a store"
  /\ Act.requests (Act.effects_of (valueEffect s)) = []
  /\ Act.state_of (valueEffect s) = s.
Proof.
  intros Hv. unfold renderBody, valueEffect, Act.bind, Act.read.
  rewrite Hv. repeat split.
Qed.

(** Mounting fetches the stores and nothing else, and shows the placeholder. *)
Lemma mount_fetches_stores_only :
  inflight init = [GetStores]
  /\ renderBody (comp init) = Text "Select a store".
Proof. split; reflexivity. Qed.

Lemma truthy_string_nonempty (v : string) :
  v <> "" -> JS.truthy_string v = true.
Proof. destruct v; [congruence|reflexivity]. Qed.

(** C10: choosing the selected store again empties the selection without
    issuing a request and without touching [skuData]; the rows that were
    shown are still held, but the view now shows the placeholder. *)
Theorem deselect_keeps_rows (sys : System) (store : Store) :
  value (comp sys) = id store ->
  id store <> "" ->
  let sys' := step sys (Select store) in
  value (comp sys') = ""
  /\ inflight sys' = inflight sys
  /\ skuData (comp sys') = skuData (comp sys)
  /\ renderBody (comp sys) = PlanningSKU (skuData (comp sys))
  /\ renderBody (comp sys') = Text "Select a store".
Proof.
  intros Hv Hne. destruct sys as [[o v st ld rows] fl]. simpl in Hv. subst v.
  unfold step, run, onSelect, valueEffect, Act.bind, Act.read, Act.update,
    Act.emit, renderBody. simpl.
  rewrite String.eqb_refl. simpl.
  destruct (String.eqb_spec (id store) "") as [E|_]; [contradiction|].
  simpl. rewrite truthy_string_nonempty by assumption.
  rewrite !app_nil_r. repeat split.
Qed.

End PlanningFacts.

Lemma no_store_no_fetch_witness :
  Planning.value Planning.initial = ""
  /\ (Planning.renderBody Planning.initial = Planning.Text "Select a store"
      /\ Act.requests (Act.effects_of (Planning.valueEffect Planning.initial))
         = []
      /\ Act.state_of (Planning.valueEffect Planning.initial)
         = Planning.initial).
Proof.
  split; [reflexivity|].
  apply (no_store_no_fetch Planning.initial). reflexivity.
Defined.

Section PlanningTraces.

Import Planning.

Lemma select_needs_selector (sys : System) (store : Store) :
  enabled sys (Select store) = true -> loading (comp sys) = false.
Proof.
  unfold enabled, renderSelector. now destruct (loading (comp sys)).
Qed.

Lemma open_needs_selector (sys : System) (b : bool) :
  enabled sys (OpenChange b) = true -> loading (comp sys) = false.
Proof.
  unfold enabled, renderSelector. now destruct (loading (comp sys)).
Qed.

(** While a fetch is in flight no store can be chosen. *)
Lemma no_selection_while_loading (sys : System) (store : Store) :
  loading (comp sys) = true -> enabled sys (Select store) = false.
Proof.
  intros H. unfold enabled, renderSelector. now rewrite H.
Qed.

Lemma request_eqb_eq (a b : request) : request_eqb a b = true -> a = b.
Proof.
  destruct a, b; simpl; try discriminate; auto.
  intros H. apply String.eqb_eq in H. now subst.
Qed.

Lemma request_eqb_refl (a : request) : request_eqb a a = true.
Proof. destruct a; simpl; auto using String.eqb_refl. Qed.

(** The one request in flight is the one that settles. *)
Lemma settle_the_one (r : request) (sys : System) :
  serial sys ->
  existsb (request_eqb r) (inflight sys) = true ->
  inflight sys = [r] /\ inflight (settle r sys) = [].
Proof.
  intros [_ Hlen] Hin. destruct sys as [c fl]. simpl in *.
  destruct fl as [|x [|y fl]]; simpl in *; try discriminate; try lia.
  rewrite orb_false_r in Hin. rewrite Hin.
  apply request_eqb_eq in Hin. now subst.
Qed.

Lemma fetchStores_resume_quiet (o : outcome (JS.value Store)) (s : State) :
  loading (Act.state_of (fetchStores_resume o s)) = false
  /\ Act.requests (Act.effects_of (fetchStores_resume o s)) = []
  /\ value (Act.state_of (fetchStores_resume o s)) = value s
  /\ skuData (Act.state_of (fetchStores_resume o s)) = skuData s.
Proof.
  destruct o as [d|]; [|repeat split].
  destruct d; repeat split.
Qed.

Lemma fetchPlanningData_resume_quiet
      (o : outcome (JS.value PlanningRow)) (s : State) :
  loading (Act.state_of (fetchPlanningData_resume o s)) = false
  /\ Act.requests (Act.effects_of (fetchPlanningData_resume o s)) = []
  /\ value (Act.state_of (fetchPlanningData_resume o s)) = value s.
Proof. destruct o; repeat split. Qed.

(** What choosing an item does to the whole system. *)
Lemma step_select (sys : System) (store : Store) :
  let v := if String.eqb (id store) (value (comp sys)) then "" else id store in
  let c := setOpen false (setValue v (comp sys)) in
  step sys (Select store)
  = if String.eqb (value (comp sys)) v then
      {| comp := c; inflight := inflight sys ++ [] |}
    else if JS.truthy_string v then
      {| comp := setLoading true c;
         inflight := (inflight sys ++ []) ++ [GetPlanning v] |}
    else {| comp := c; inflight := (inflight sys ++ []) ++ [] |}.
Proof.
  destruct sys as [[o v st ld rows] fl]. simpl.
  unfold step, run, onSelect, valueEffect, Act.bind, Act.read, Act.update,
    Act.emit. simpl.
  destruct (String.eqb (id store) v); simpl.
  - destruct (String.eqb v ""); reflexivity.
  - destruct (String.eqb v (id store)); [reflexivity|].
    simpl. destruct (JS.truthy_string (id store)); reflexivity.
Qed.

Lemma serial_init : serial init.
Proof. split; simpl; [discriminate|lia]. Qed.

Lemma serial_step (sys : System) (ev : event) :
  serial sys -> enabled sys ev = true -> serial (step sys ev).
Proof.
  intros Hs Hen. destruct ev as [b|store|o|storeId o].
  - apply open_needs_selector in Hen. destruct Hs as [Hq _].
    specialize (Hq Hen). destruct sys as [c fl]. simpl in *. subst fl.
    split; simpl; [reflexivity|lia].
  - apply select_needs_selector in Hen. destruct Hs as [Hq _].
    specialize (Hq Hen). rewrite step_select. rewrite Hq. simpl.
    destruct (String.eqb (value (comp sys)) _); [split; simpl; auto; lia|].
    destruct (JS.truthy_string _); split; simpl; auto; try lia; discriminate.
  - destruct (settle_the_one GetStores sys Hs Hen) as [_ Hnil].
    destruct (fetchStores_resume_quiet o (comp (settle GetStores sys)))
      as (Hl & Hr & _).
    unfold step, run. split; cbn [comp inflight]; rewrite Hnil, Hr; simpl; auto.
  - destruct (settle_the_one (GetPlanning storeId) sys Hs Hen) as [_ Hnil].
    destruct (fetchPlanningData_resume_quiet
                o (comp (settle (GetPlanning storeId) sys))) as (Hl & Hr & _).
    unfold step, run. split; cbn [comp inflight]; rewrite Hnil, Hr; simpl; auto.
Qed.

Lemma exec_cons (sys sys' : System) (ev : event) (tr : list event) :
  exec sys (ev :: tr) = Some sys' ->
  enabled sys ev = true /\ exec (step sys ev) tr = Some sys'.
Proof. simpl. destruct (enabled sys ev); [auto|discriminate]. Qed.

Lemma exec_app (sys sys' : System) (tr1 tr2 : list event) :
  exec sys (tr1 ++ tr2) = Some sys' ->
  exists mid, exec sys tr1 = Some mid /\ exec mid tr2 = Some sys'.
Proof.
  revert sys; induction tr1 as [|ev tr1 IH]; intros sys H.
  - exists sys. auto.
  - rewrite <- app_comm_cons in H. apply exec_cons in H as [Hen H].
    destruct (IH _ H) as (mid & H1 & H2). exists mid. simpl. now rewrite Hen.
Qed.

(** Every state the mounted component can reach is serial. *)
Lemma serial_exec (sys sys' : System) (tr : list event) :
  serial sys -> exec sys tr = Some sys' -> serial sys'.
Proof.
  revert sys; induction tr as [|ev tr IH]; intros sys Hs H.
  - simpl in H. now inversion H; subst.
  - apply exec_cons in H as [Hen H]. eauto using serial_step.
Qed.

Lemma value_step_select (sys : System) (store : Store) :
  value (comp (step sys (Select store)))
  = if String.eqb (id store) (value (comp sys)) then "" else id store.
Proof.
  rewrite step_select. cbv zeta.
  destruct (String.eqb (value (comp sys)) _); [reflexivity|].
  destruct (JS.truthy_string _); reflexivity.
Qed.

Lemma value_step_other (sys : System) (ev : event) :
  is_select ev = false -> value (comp (step sys ev)) = value (comp sys).
Proof.
  destruct ev as [b|store|o|storeId o]; intros H; try discriminate.
  - reflexivity.
  - unfold step, run. cbn [comp].
    now destruct (fetchStores_resume_quiet o (comp (settle GetStores sys)))
      as (_ & _ & Hv & _).
  - unfold step, run. cbn [comp].
    now destruct (fetchPlanningData_resume_quiet
                    o (comp (settle (GetPlanning storeId) sys)))
      as (_ & _ & Hv).
Qed.

Lemma value_exec_no_select (sys sys' : System) (tr : list event) :
  no_select tr = true -> exec sys tr = Some sys' ->
  value (comp sys') = value (comp sys).
Proof.
  revert sys; induction tr as [|ev tr IH]; intros sys Hns H.
  - simpl in H. now inversion H.
  - apply exec_cons in H as [_ H]. simpl in Hns.
    apply andb_true_iff in Hns as [Hev Hns].
    rewrite (IH _ Hns H). apply value_step_other.
    now destruct (is_select ev).
Qed.

(** Once the fetch of the selected store is the only thing pending, any
    event other than a choice either settles it with that store's rows or
    leaves the rows alone. *)
Lemma settling_step (rows_of : string -> JS.value PlanningRow)
      (storeId : string) (sys : System) (ev : event) :
  settling rows_of storeId sys ->
  is_select ev = false ->
  enabled sys ev = true ->
  planning_fulfilled rows_of [ev] ->
  settling rows_of storeId (step sys ev).
Proof.
  intros [Hv Hcase] Hns Hen Hok.
  destruct ev as [b|store|o|y o]; try discriminate.
  - apply open_needs_selector in Hen.
    destruct Hcase as [[Hl _]|[Hfl Hrows]]; [congruence|].
    split; [exact Hv|right]. unfold step, run. cbn. now rewrite Hfl.
  - cbn [enabled] in Hen.
    destruct Hcase as [[_ Hfl]|[Hfl _]]; rewrite Hfl in Hen; discriminate.
  - cbn [enabled] in Hen.
    destruct Hcase as [[_ Hfl]|[Hfl _]]; rewrite Hfl in Hen;
      [|discriminate].
    simpl in Hen. rewrite orb_false_r in Hen.
    apply String.eqb_eq in Hen. subst y.
    rewrite (Hok storeId o (or_introl eq_refl)).
    destruct sys as [c fl]. simpl in Hv, Hfl. subst fl.
    split; [exact Hv|right].
    unfold step, run, settle. cbn. now rewrite String.eqb_refl.
Qed.

Lemma settling_exec (rows_of : string -> JS.value PlanningRow)
      (storeId : string) (sys sys' : System) (tr : list event) :
  settling rows_of storeId sys ->
  no_select tr = true ->
  planning_fulfilled rows_of tr ->
  exec sys tr = Some sys' ->
  settling rows_of storeId sys'.
Proof.
  revert sys; induction tr as [|ev tr IH]; intros sys Hk Hns Hok H.
  - simpl in H. now inversion H; subst.
  - apply exec_cons in H as [Hen H]. simpl in Hns.
    apply andb_true_iff in Hns as [Hev Hns].
    apply (IH (step sys ev)); auto.
    + apply settling_step; auto.
      * now destruct (is_select ev).
      * intros y o [E|[]]. apply (Hok y o). now left.
    + intros y o Hin. apply (Hok y o). now right.
Qed.

(** C4: select store A, then store B.  In every run of the component in
    which the planning fetches settling after the first choice are fulfilled
    with the rows of their stores, once nothing is in flight the rows held and
    displayed are those of B.  The responses cannot arrive out of order: the
    selector is replaced by the loading line while A's fetch is in flight, so
    B can only be chosen after A's response has been applied. *)
Theorem later_selection_is_displayed
        (rows_of : string -> JS.value PlanningRow) (A B : Store)
        (before between after : list event) (sys : System) :
  exec init (before ++ Select A :: between ++ Select B :: after) = Some sys ->
  id A <> id B ->
  id B <> "" ->
  no_select (between ++ after) = true ->
  planning_fulfilled rows_of (between ++ after) ->
  inflight sys = [] ->
  value (comp sys) = id B
  /\ skuData (comp sys) = rows_of (id B)
  /\ renderBody (comp sys) = PlanningSKU (rows_of (id B)).
Proof.
  intros Hrun HAB HB Hns Hok Hquiet.
  apply exec_app in Hrun as (s1 & Hrun1 & Hrun).
  apply exec_cons in Hrun as [HenA Hrun].
  apply exec_app in Hrun as (s2 & Hrun2 & Hrun).
  apply exec_cons in Hrun as [HenB Hrun3].
  unfold no_select in Hns. rewrite forallb_app in Hns.
  apply andb_true_iff in Hns as [Hns2 Hns3].
  assert (Hs2 : serial s2).
  { eapply serial_exec; [|exact Hrun2].
    apply serial_step; [|exact HenA].
    eapply serial_exec; [apply serial_init|exact Hrun1]. }
  assert (Hv2 : value (comp s2) = id A \/ value (comp s2) = "").
  { rewrite (value_exec_no_select _ _ _ Hns2 Hrun2), value_step_select.
    destruct (String.eqb (id A) (value (comp s1))); auto. }
  assert (Hk : settling rows_of (id B) (step s2 (Select B))).
  { pose proof (select_needs_selector _ _ HenB) as Hl.
    destruct Hs2 as [Hq _]. specialize (Hq Hl).
    rewrite step_select. cbv zeta. rewrite Hq.
    assert (Hne : String.eqb (id B) (value (comp s2)) = false).
    { apply String.eqb_neq. destruct Hv2 as [E|E]; rewrite E; congruence. }
    rewrite Hne.
    assert (Hne' : String.eqb (value (comp s2)) (id B) = false).
    { apply String.eqb_neq. destruct Hv2 as [E|E]; rewrite E; congruence. }
    rewrite Hne', truthy_string_nonempty by assumption.
    split; [reflexivity|left]. split; reflexivity. }
  assert (Hfinal : settling rows_of (id B) sys).
  { eapply settling_exec; [exact Hk|exact Hns3| |exact Hrun3].
    intros y o Hin. apply (Hok y o). apply in_or_app. now right. }
  destruct Hfinal as [Hv [[_ Hfl]|[_ Hrows]]]; [congruence|].
  repeat split; auto.
  unfold renderBody. rewrite Hv, truthy_string_nonempty by assumption.
  now rewrite Hrows.
Qed.

(** The handlers themselves carry no guard: applied in the opposite order,
    the response that is applied last is the one whose rows are held. *)
Lemma last_applied_response_wins
      (rowsA rowsB : JS.value PlanningRow) (s : State) :
  skuData
    (Act.state_of
       (fetchPlanningData_resume
          (Fulfilled rowsA)
          (Act.state_of (fetchPlanningData_resume (Fulfilled rowsB) s))))
  = rowsA.
Proof. reflexivity. Qed.

End PlanningTraces.


Lemma showing_A_reachable :
  Planning.exec Planning.init
                (Sample.before_A
                 ++ Planning.Select Sample.storeA
                 :: Sample.between_A_and_B)
  = Some Sample.showing_A.
Proof. reflexivity. Qed.

Lemma deselect_keeps_rows_witness :
  Planning.value (Planning.comp Sample.showing_A)
  = Planning.id Sample.storeA
  /\ Planning.id Sample.storeA <> ""
  /\ (let sys' := Planning.step Sample.showing_A
                                (Planning.Select Sample.storeA) in
      Planning.value (Planning.comp sys') = ""
      /\ Planning.inflight sys' = Planning.inflight Sample.showing_A
      /\ Planning.skuData (Planning.comp sys')
         = Planning.skuData (Planning.comp Sample.showing_A)
      /\ Planning.renderBody (Planning.comp Sample.showing_A)
         = Planning.PlanningSKU
             (Planning.skuData (Planning.comp Sample.showing_A))
      /\ Planning.renderBody (Planning.comp sys')
         = Planning.Text "Select a store").
Proof.
  split; [reflexivity|]. split; [discriminate|].
  apply (deselect_keeps_rows Sample.showing_A Sample.storeA);
    [reflexivity|discriminate].
Defined.

Lemma sample_run_fulfilled :
  Planning.planning_fulfilled
    Sample.rows_of (Sample.between_A_and_B ++ Sample.after_B).
Proof.
  intros storeId o H. simpl in H.
  destruct H as [H|[H|[H|[]]]]; inversion H; reflexivity.
Defined.

Lemma later_selection_is_displayed_witness :
  Planning.exec Planning.init
                (Sample.before_A
                 ++ Planning.Select Sample.storeA
                 :: Sample.between_A_and_B
                 ++ Planning.Select Sample.storeB
                 :: Sample.after_B)
  = Some {| Planning.comp :=
              {| Planning.open := false;
                 Planning.value := "ST046";
                 Planning.stores := JS.Arr [Sample.storeA; Sample.storeB];
                 Planning.loading := false;
                 Planning.skuData := Sample.rowsB |};
            Planning.inflight := [] |}
  /\ Planning.id Sample.storeA <> Planning.id Sample.storeB
  /\ Planning.id Sample.storeB <> ""
  /\ Planning.no_select (Sample.between_A_and_B ++ Sample.after_B) = true
  /\ Planning.planning_fulfilled
       Sample.rows_of (Sample.between_A_and_B ++ Sample.after_B)
  /\ (Planning.value
        {| Planning.open := false;
           Planning.value := "ST046";
           Planning.stores := JS.Arr [Sample.storeA; Sample.storeB];
           Planning.loading := false;
           Planning.skuData := Sample.rowsB |}
      = Planning.id Sample.storeB
      /\ Planning.skuData
           {| Planning.open := false;
              Planning.value := "ST046";
              Planning.stores := JS.Arr [Sample.storeA; Sample.storeB];
              Planning.loading := false;
              Planning.skuData := Sample.rowsB |}
         = Sample.rows_of (Planning.id Sample.storeB)
      /\ Planning.renderBody
           {| Planning.open := false;
              Planning.value := "ST046";
              Planning.stores := JS.Arr [Sample.storeA; Sample.storeB];
              Planning.loading := false;
              Planning.skuData := Sample.rowsB |}
         = Planning.PlanningSKU (Sample.rows_of (Planning.id Sample.storeB))).
Proof.
  split; [reflexivity|]. split; [discriminate|]. split; [discriminate|].
  split; [reflexivity|]. split; [exact sample_run_fulfilled|].
  apply (later_selection_is_displayed
           Sample.rows_of Sample.storeA Sample.storeB
           Sample.before_A Sample.between_A_and_B Sample.after_B
           {| Planning.comp :=
                {| Planning.open := false;
                   Planning.value := "ST046";
                   Planning.stores := JS.Arr [Sample.storeA; Sample.storeB];
                   Planning.loading := false;
                   Planning.skuData := Sample.rowsB |};
              Planning.inflight := [] |});
    [reflexivity|discriminate|discriminate|reflexivity
    |exact sample_run_fulfilled|reflexivity].
Defined.

(** While the fetch for store A is in flight, store B cannot be chosen: the
    run stops being a run of the component. *)
Example no_choice_during_fetch :
  Planning.exec Planning.init
                (Sample.before_A
                 ++ [Planning.Select Sample.storeA;
                     Planning.Select Sample.storeB])
  = None
  /\ Planning.exec Planning.init
                   (Sample.before_A
                    ++ [Planning.Select Sample.storeA;
                        Planning.OpenChange true])
     = None.
Proof. split; reflexivity. Qed.

(* ================================================================== *)
(** * The SKU directory: pages, buttons and row numbers                *)
(* ================================================================== *)

Section PageFacts.

Variable toLowerCase : string -> string.

Local Abbreviation filtered := (SKUs.filteredStores toLowerCase).
Local Abbreviation pageData := (SKUs.getCurrentPageData toLowerCase).

Lemma pageData_window (l : list SKUs.iSKU) (q : string) (p : Z) :
  1 <= p ->
  pageData l q p = firstn 10 (skipn (Z.to_nat ((p - 1) * 10)) (filtered l q)).
Proof.
  intros Hp. unfold SKUs.getCurrentPageData, SKUs.filteredStores,
    SKUs.itemsPerPage.
  rewrite slice_window by lia. f_equal. lia.
Qed.

Lemma firstn_plus {A : Type} (a b : nat) (l : list A) :
  firstn (a + b) l = firstn a l ++ firstn b (skipn a l).
Proof.
  revert l; induction a as [|a IH]; intros [|x l]; simpl; auto.
  - now rewrite firstn_nil.
  - now rewrite IH.
Qed.

Lemma pages_in_order_firstn (l : list SKUs.iSKU) (q : string) (n : nat) :
  SKUsPage.pages_in_order toLowerCase l q n = firstn (n * 10) (filtered l q).
Proof.
  unfold SKUsPage.pages_in_order. induction n as [|n IH].
  - reflexivity.
  - rewrite seq_S, flat_map_app, IH, Nat.add_0_l.
    cbn [flat_map]. rewrite app_nil_r.
    rewrite pageData_window by lia.
    replace (Z.to_nat ((Z.of_nat n + 1 - 1) * 10)) with (n * 10)%nat by lia.
    replace (S n * 10)%nat with (n * 10 + 10)%nat by lia.
    now rewrite firstn_plus.
Qed.

Lemma totalPages_covers (l : list SKUs.iSKU) :
  (List.length l <= Z.to_nat (SKUs.totalPages l) * 10)%nat.
Proof.
  unfold SKUs.totalPages, SKUs.itemsPerPage.
  pose proof (ceil_div_spec (Z.of_nat (List.length l)) 10 ltac:(lia)).
  lia.
Qed.

Lemma pageData_length (l : list SKUs.iSKU) (q : string) (p : Z) :
  1 <= p ->
  Z.of_nat (List.length (pageData l q p))
  = Z.min 10 (Z.max 0 (Z.of_nat (List.length (filtered l q)) - (p - 1) * 10)).
Proof.
  intros Hp. rewrite pageData_window by assumption.
  rewrite length_firstn, length_skipn. lia.
Qed.

(** X1: for a page [p >= 1] the number of rows is what is left of the
    filtered list after [p - 1] full pages, capped at ten: ten on a full page,
    the remainder on the last one, none beyond it. *)
Theorem page_length (l : list SKUs.iSKU) (q : string) (p : Z) :
  1 <= p ->
  Z.of_nat (List.length (pageData l q p))
  = Z.min 10 (Z.max 0 (Z.of_nat (List.length (filtered l q)) - (p - 1) * 10))
  /\ (p * 10 <= Z.of_nat (List.length (filtered l q)) ->
      List.length (pageData l q p) = 10%nat)
  /\ (Z.of_nat (List.length (filtered l q)) <= (p - 1) * 10 ->
      pageData l q p = []).
Proof.
  intros Hp. pose proof (pageData_length l q p Hp) as Hlen.
  split; [exact Hlen|]. split; intros H.
  - lia.
  - apply length_zero_iff_nil. lia.
Qed.

(** X2: the pages behind the numbered buttons 1 .. totalPages, read one after
    the other, are exactly the filtered list: every SKU that matches the
    search is listed once, in order, on a page that has a button, although
    the number of buttons is computed from the unfiltered list. *)
Theorem buttons_cover_filtered
        (l : list SKUs.iSKU) (q : string) (currentPage : Z) :
  SKUsPage.pages_in_order toLowerCase l q (Z.to_nat (SKUs.totalPages l))
  = filtered l q
  /\ map SKUsPage.page
         (SKUsPage.page_buttons (SKUs.totalPages l) currentPage)
     = map (fun index => Z.of_nat index + 1)
           (seq 0 (Z.to_nat (SKUs.totalPages l))).
Proof.
  split.
  - rewrite pages_in_order_firstn. apply firstn_all2.
    pose proof (totalPages_covers l).
    pose proof (filter_length_le (SKUs.matches toLowerCase q) l).
    unfold SKUs.filteredStores. lia.
  - unfold SKUsPage.page_buttons. rewrite map_map. reflexivity.
Qed.

Lemma number_rows_nth (cur : list SKUs.iSKU) (index p : Z) (k : nat) :
  nth_error (SKUsPage.number_rows cur index p) k
  = option_map
      (fun sku => SKUsPage.mkRow ((p - 1) * 10 + index + Z.of_nat k + 1) sku)
      (nth_error cur k).
Proof.
  revert index k; induction cur as [|sku cur IH]; intros index [|k]; simpl;
    try reflexivity.
  - unfold SKUs.itemsPerPage. do 2 f_equal. lia.
  - rewrite IH. destruct (nth_error cur k); simpl; [|reflexivity].
    do 2 f_equal. lia.
Qed.

(** X3: on a page [p >= 1] the number in the [#] column is the position,
    counted from 1, of the row's SKU in the filtered list; the rows are the
    SKUs of the page, in order. *)
Theorem row_numbers_are_positions (l : list SKUs.iSKU) (q : string) (p : Z) :
  1 <= p ->
  map SKUsPage.shown (SKUsPage.number_rows (pageData l q p) 0 p)
  = pageData l q p
  /\ Forall (fun r =>
               1 <= SKUsPage.number r
               /\ nth_error (filtered l q) (Z.to_nat (SKUsPage.number r - 1))
                  = Some (SKUsPage.shown r))
            (SKUsPage.number_rows (pageData l q p) 0 p).
Proof.
  intros Hp. split.
  - generalize 0. induction (pageData l q p) as [|sku cur IH]; intros index;
      simpl; [reflexivity|]. now rewrite IH.
  - apply Forall_forall. intros r Hin.
    apply In_nth_error in Hin as [k Hk].
    rewrite number_rows_nth in Hk.
    destruct (nth_error (pageData l q p) k) as [sku|] eqn:Hsku;
      [|discriminate].
    simpl in Hk. inversion Hk; subst r; clear Hk. simpl.
    split; [lia|].
    rewrite pageData_window in Hsku by assumption.
    rewrite nth_error_firstn, nth_error_skipn in Hsku.
    destruct (Nat.ltb k 10); [|discriminate].
    rewrite <- Hsku. f_equal. lia.
Qed.

(** X4: when lower-casing the empty string gives the empty string, the empty
    search keeps every SKU, so the number of page buttons is then the page
    count of what is listed. *)
Theorem empty_search_lists_all (l : list SKUs.iSKU) :
  toLowerCase "" = "" ->
  filtered l "" = l
  /\ SKUs.totalPages l
     = JS.ceil_div (Z.of_nat (List.length (filtered l ""))) 10.
Proof.
  intros Hlow.
  assert (H : filtered l "" = l).
  { unfold SKUs.filteredStores. induction l as [|sku l IH]; [reflexivity|].
    simpl. unfold SKUs.matches at 1. rewrite Hlow, includes_unfold.
    replace (String.prefix "" (toLowerCase (SKUs.label sku))) with true
      by now destruct (toLowerCase (SKUs.label sku)).
    now rewrite IH. }
  rewrite H. split; reflexivity.
Qed.

(** X5: past the last numbered page (in particular on page 1 of an empty
    directory, where there is no button at all) the table is empty and Next
    is not disabled. *)
Theorem past_last_page (s : SKUs.State) (l : list SKUs.iSKU) :
  SKUs.allSKUs s = JS.Arr l ->
  SKUs.loading s = false ->
  SKUs.totalPages l < SKUs.currentPage s ->
  SKUsPage.render toLowerCase s
  = Some (SKUsPage.Directory
            (SKUs.searchQuery s) (SKUs.isDrawerOpen s) []
            (SKUsPage.page_buttons (SKUs.totalPages l) (SKUs.currentPage s))
            (SKUs.currentPage s =? 1) false)
  /\ Forall (fun b => SKUsPage.highlighted b = false)
            (SKUsPage.page_buttons (SKUs.totalPages l) (SKUs.currentPage s)).
Proof.
  intros Harr Hload Hpast.
  pose proof (totalPages_covers l) as Hcov.
  pose proof (filter_length_le (SKUs.matches toLowerCase (SKUs.searchQuery s)) l)
    as Hfil.
  assert (Hpos : 0 <= SKUs.totalPages l).
  { unfold SKUs.totalPages, SKUs.itemsPerPage.
    pose proof (ceil_div_spec (Z.of_nat (List.length l)) 10 ltac:(lia)). lia. }
  split.
  - unfold SKUsPage.render. rewrite Harr, Hload.
    assert (Hempty : pageData l (SKUs.searchQuery s) (SKUs.currentPage s) = []).
    { apply length_zero_iff_nil.
      pose proof (pageData_length l (SKUs.searchQuery s) (SKUs.currentPage s)
                                  ltac:(lia)) as Hlen.
      unfold SKUs.filteredStores in Hlen. lia. }
    rewrite Hempty. simpl.
    replace (SKUs.currentPage s =? SKUs.totalPages l) with false
      by (symmetry; apply Z.eqb_neq; lia).
    reflexivity.
  - unfold SKUsPage.page_buttons. apply Forall_forall. intros b Hin.
    apply in_map_iff in Hin as (index & <- & Hin). apply in_seq in Hin.
    simpl. apply Z.eqb_neq. lia.
Qed.

End PageFacts.

Lemma page_length_witness :
  1 <= 1
  /\ (Z.of_nat (List.length
                  (SKUs.getCurrentPageData
                     JS.toLowerCase_ascii [Sample.widget; Sample.gadget] "dg" 1))
      = Z.min 10
          (Z.max 0
             (Z.of_nat (List.length
                          (SKUs.filteredStores
                             JS.toLowerCase_ascii
                             [Sample.widget; Sample.gadget] "dg"))
              - (1 - 1) * 10))
      /\ (1 * 10
          <= Z.of_nat (List.length
                         (SKUs.filteredStores
                            JS.toLowerCase_ascii
                            [Sample.widget; Sample.gadget] "dg")) ->
          List.length
            (SKUs.getCurrentPageData
               JS.toLowerCase_ascii [Sample.widget; Sample.gadget] "dg" 1)
          = 10%nat)
      /\ (Z.of_nat (List.length
                      (SKUs.filteredStores
                         JS.toLowerCase_ascii
                         [Sample.widget; Sample.gadget] "dg"))
          <= (1 - 1) * 10 ->
          SKUs.getCurrentPageData
            JS.toLowerCase_ascii [Sample.widget; Sample.gadget] "dg" 1
          = [])).
Proof.
  split; [lia|].
  apply (page_length JS.toLowerCase_ascii
                     [Sample.widget; Sample.gadget] "dg" 1).
  lia.
Defined.

Lemma row_numbers_are_positions_witness :
  1 <= 1
  /\ (map SKUsPage.shown
          (SKUsPage.number_rows
             (SKUs.getCurrentPageData
                JS.toLowerCase_ascii [Sample.widget; Sample.gadget] "GET" 1)
             0 1)
      = SKUs.getCurrentPageData
          JS.toLowerCase_ascii [Sample.widget; Sample.gadget] "GET" 1
      /\ Forall (fun r =>
                   1 <= SKUsPage.number r
                   /\ nth_error (SKUs.filteredStores
                                   JS.toLowerCase_ascii
                                   [Sample.widget; Sample.gadget] "GET")
                                (Z.to_nat (SKUsPage.number r - 1))
                      = Some (SKUsPage.shown r))
                (SKUsPage.number_rows
                   (SKUs.getCurrentPageData
                      JS.toLowerCase_ascii
                      [Sample.widget; Sample.gadget] "GET" 1)
                   0 1)).
Proof.
  split; [lia|].
  apply (row_numbers_are_positions JS.toLowerCase_ascii
           [Sample.widget; Sample.gadget] "GET" 1).
  lia.
Defined.

Lemma empty_search_lists_all_witness :
  JS.toLowerCase_ascii "" = ""
  /\ (SKUs.filteredStores JS.toLowerCase_ascii
                          [Sample.widget; Sample.gadget] ""
      = [Sample.widget; Sample.gadget]
      /\ SKUs.totalPages [Sample.widget; Sample.gadget]
         = JS.ceil_div
             (Z.of_nat (List.length
                          (SKUs.filteredStores
                             JS.toLowerCase_ascii
                             [Sample.widget; Sample.gadget] "")))
             10).
Proof.
  split; [reflexivity|].
  apply (empty_search_lists_all JS.toLowerCase_ascii
                                [Sample.widget; Sample.gadget]).
  reflexivity.
Defined.

Lemma past_last_page_witness :
  SKUs.allSKUs (SKUs.setLoading false SKUs.initial) = JS.Arr []
  /\ SKUs.loading (SKUs.setLoading false SKUs.initial) = false
  /\ SKUs.totalPages [] < SKUs.currentPage (SKUs.setLoading false SKUs.initial)
  /\ (SKUsPage.render JS.toLowerCase_ascii (SKUs.setLoading false SKUs.initial)
      = Some (SKUsPage.Directory
                (SKUs.searchQuery (SKUs.setLoading false SKUs.initial))
                (SKUs.isDrawerOpen (SKUs.setLoading false SKUs.initial)) []
                (SKUsPage.page_buttons
                   (SKUs.totalPages [])
                   (SKUs.currentPage (SKUs.setLoading false SKUs.initial)))
                (SKUs.currentPage (SKUs.setLoading false SKUs.initial) =? 1)
                false)
      /\ Forall (fun b => SKUsPage.highlighted b = false)
                (SKUsPage.page_buttons
                   (SKUs.totalPages [])
                   (SKUs.currentPage (SKUs.setLoading false SKUs.initial)))).
Proof.
  split; [reflexivity|]. split; [reflexivity|]. split; [reflexivity|].
  apply (past_last_page JS.toLowerCase_ascii
                        (SKUs.setLoading false SKUs.initial) []);
    reflexivity.
Defined.

(* ================================================================== *)
(** * The SKU directory: what the handlers leave behind                *)
(* ================================================================== *)

Section HandlerFacts.

Import SKUs.

Lemma fetchSKU_resume_cases (o : outcome (JS.value iSKU)) (s : State) :
  (exists v, fetchSKU_resume o s
             = (Act.Normal tt, setLoading false (setAllSKUs v s), []))
  \/ fetchSKU_resume o s
     = (Act.Normal tt, setLoading false s,
        [ConsoleError "Error fetching SKU:"]).
Proof.
  destruct o as [data|]; [|now right].
  destruct data as [| |l|props]; try (now right).
  - left. now exists (JS.Arr l).
  - left. unfold fetchSKU_resume, Act.try_finally, Act.try_catch, Act.bind,
      Act.await, Act.prop, Act.ret, Act.update, JS.get.
    destruct (JS.assoc "skus" props) as [v|]; eexists; reflexivity.
Qed.

(** X6: however the GET /skus settles, and whatever its body is, [fetchSKU]
    ends normally with [loading] false, issues no further request, shows no
    toast, and leaves the page number, the search text and the drawer as they
    were. *)
Theorem fetchSKU_always_settles (o : outcome (JS.value iSKU)) (s : State) :
  let res := fetchSKU_resume o s in
  Act.completion_of res = Act.Normal tt
  /\ loading (Act.state_of res) = false
  /\ Act.requests (Act.effects_of res) = []
  /\ existsb Act.is_toast (Act.effects_of res) = false
  /\ currentPage (Act.state_of res) = currentPage s
  /\ searchQuery (Act.state_of res) = searchQuery s
  /\ isDrawerOpen (Act.state_of res) = isDrawerOpen s.
Proof.
  cbv zeta. destruct (fetchSKU_resume_cases o s) as [[v H]|H]; rewrite H;
    repeat split.
Qed.

(** X7: a body that is an object whose [skus] property is missing, [null] or
    [undefined] is stored whole in [allSKUs]; the render that follows, with
    [loading] false, throws. *)
Theorem fetchSKU_stores_malformed_body
        (toLowerCase : string -> string)
        (props : list (string * JS.value iSKU)) (s : State) :
  SKUsPage.falsy_property (JS.Obj props) "skus" ->
  let s' := Act.state_of (fetchSKU_resume (Fulfilled (JS.Obj props)) s) in
  allSKUs s' = JS.Obj props
  /\ loading s' = false
  /\ Act.effects_of (fetchSKU_resume (Fulfilled (JS.Obj props)) s) = []
  /\ SKUsPage.render toLowerCase s' = None.
Proof.
  intros (x & Hget & Hfalsy). cbv zeta.
  unfold fetchSKU_resume, Act.try_finally, Act.try_catch, Act.bind,
    Act.await, Act.prop, Act.ret, Act.update.
  rewrite Hget. unfold JS.or. rewrite Hfalsy. repeat split.
Qed.

(** X8: a create or a delete never touches the list itself.  When the request
    is fulfilled the handler starts exactly one refetch of the whole list
    (turning [loading] on) and shows no error toast; when it is rejected it
    starts none and leaves [loading] alone. *)
Theorem mutations_refetch
        (body : iSKU) (id : string) (data : JS.value iSKU) (s : State) :
  Forall (fun r =>
            let ok := resume r (Fulfilled data) s in
            let ko := resume r Rejected s in
            allSKUs (Act.state_of ok) = allSKUs s
            /\ loading (Act.state_of ok) = true
            /\ Act.requests (Act.effects_of ok) = [GetSkus]
            /\ existsb Act.is_error_toast (Act.effects_of ok) = false
            /\ allSKUs (Act.state_of ko) = allSKUs s
            /\ loading (Act.state_of ko) = loading s
            /\ Act.requests (Act.effects_of ko) = [])
         [PostSku body; DeleteSku id]
  /\ Act.effects_of (resume (PostSku body) (Fulfilled data) s)
     = [ToastSuccess "SKU added successfully"; FormReset; Http GetSkus]
  /\ Act.effects_of (resume (DeleteSku id) (Fulfilled data) s)
     = [Http GetSkus; ToastSuccess "SKU deleted successfully"].
Proof.
  split; [|split; reflexivity].
  repeat constructor.
Qed.

(** X9: the drawer of the add form closes, and the form is reset, only when
    the create request is fulfilled; after a rejected create the drawer is as
    it was and the form keeps its values. *)
Theorem drawer_closes_on_success_only (data : JS.value iSKU) (s : State) :
  isDrawerOpen (Act.state_of (onSubmit_resume (Fulfilled data) s)) = false
  /\ In FormReset (Act.effects_of (onSubmit_resume (Fulfilled data) s))
  /\ isDrawerOpen (Act.state_of (onSubmit_resume Rejected s)) = isDrawerOpen s
  /\ ~ In FormReset (Act.effects_of (onSubmit_resume Rejected s)).
Proof.
  repeat split.
  - simpl. auto.
  - simpl. intros [H|[H|[]]]; discriminate.
Qed.

End HandlerFacts.

Lemma fetchSKU_stores_malformed_body_witness :
  SKUsPage.falsy_property
    (JS.Obj [("error", JS.Arr [Sample.widget])]) "skus"
  /\ (let s' :=
        Act.state_of
          (SKUs.fetchSKU_resume
             (Fulfilled (JS.Obj [("error", JS.Arr [Sample.widget])]))
             SKUs.initial) in
      SKUs.allSKUs s' = JS.Obj [("error", JS.Arr [Sample.widget])]
      /\ SKUs.loading s' = false
      /\ Act.effects_of
           (SKUs.fetchSKU_resume
              (Fulfilled (JS.Obj [("error", JS.Arr [Sample.widget])]))
              SKUs.initial)
         = []
      /\ SKUsPage.render JS.toLowerCase_ascii s' = None).
Proof.
  assert (H : SKUsPage.falsy_property
                (JS.Obj [("error", JS.Arr [Sample.widget])]) "skus")
    by (exists JS.Undefined; split; reflexivity).
  split; [exact H|].
  apply (fetchSKU_stores_malformed_body
           JS.toLowerCase_ascii
           [("error", JS.Arr [Sample.widget])] SKUs.initial).
  exact H.
Defined.

(* ================================================================== *)
(** * The SKU directory: runs of the page                              *)
(* ================================================================== *)

Section PageRuns.

Import SKUs.

Variable toLowerCase : string -> string.
Variable parseFloat : string -> Q.

Local Abbreviation render := (SKUsPage.render toLowerCase).
Local Abbreviation enabled := (SKUsPage.enabled toLowerCase).
Local Abbreviation step := (SKUsPage.step parseFloat).
Local Abbreviation exec := (SKUsPage.exec toLowerCase parseFloat).

(** A click or a keystroke needs the directory to be on screen. *)
Lemma user_event_needs_directory (sys : SKUsPage.System) (ev : SKUsPage.event) :
  (forall n o, ev <> SKUsPage.Settled n o) ->
  enabled sys ev = true ->
  exists l,
    allSKUs (SKUsPage.comp sys) = JS.Arr l
    /\ loading (SKUsPage.comp sys) = false
    /\ render (SKUsPage.comp sys)
       = Some (SKUsPage.Directory
                 (searchQuery (SKUsPage.comp sys))
                 (isDrawerOpen (SKUsPage.comp sys))
                 (SKUsPage.number_rows
                    (getCurrentPageData toLowerCase l
                       (searchQuery (SKUsPage.comp sys))
                       (currentPage (SKUsPage.comp sys)))
                    0 (currentPage (SKUsPage.comp sys)))
                 (SKUsPage.page_buttons
                    (totalPages l) (currentPage (SKUsPage.comp sys)))
                 (currentPage (SKUsPage.comp sys) =? 1)
                 (currentPage (SKUsPage.comp sys) =? totalPages l)).
Proof.
  intros Hev Hen.
  assert (Hview : exists v, render (SKUsPage.comp sys) = Some v
                            /\ v <> SKUsPage.LoadingSKUs).
  { destruct ev; try (exfalso; eapply Hev; reflexivity);
      unfold SKUsPage.enabled in Hen;
      destruct (render (SKUsPage.comp sys)) as [[|]|]; try discriminate;
      eexists; split; try reflexivity; discriminate. }
  destruct Hview as (v & Hv & Hnl).
  unfold SKUsPage.render in *.
  destruct (allSKUs (SKUsPage.comp sys)) as [| |l|props]; try discriminate;
    destruct (loading (SKUsPage.comp sys)); try discriminate;
    try (inversion Hv; congruence).
  exists l. repeat split.
Qed.

Lemma resume_keeps_page (r : request) (o : outcome (JS.value iSKU)) (s : State) :
  currentPage (Act.state_of (resume r o s)) = currentPage s
  /\ (JS.truthy (allSKUs s) = true ->
      JS.truthy (allSKUs (Act.state_of (resume r o s))) = true).
Proof.
  destruct r as [|body|i].
  - simpl. destruct o as [data|]; [|split; auto].
    destruct data as [| |l|props]; try (split; auto; fail).
    unfold fetchSKU_resume, Act.try_finally, Act.try_catch, Act.bind,
      Act.await, Act.prop, Act.ret, Act.update, JS.get, JS.or.
    destruct (JS.assoc "skus" props) as [[| |l|ps]|]; split; auto.
  - destruct o; split; auto.
  - destruct o; split; auto.
Qed.

Lemma page_buttons_positive (tp cp n : Z) :
  existsb (fun b => SKUsPage.page b =? n) (SKUsPage.page_buttons tp cp) = true ->
  1 <= n <= tp.
Proof.
  intros H. apply existsb_exists in H as (b & Hin & Hb).
  unfold SKUsPage.page_buttons in Hin.
  apply in_map_iff in Hin as (index & <- & Hin). apply in_seq in Hin.
  simpl in Hb. apply Z.eqb_eq in Hb. lia.
Qed.

Lemma page_state_ok_step (sys : SKUsPage.System) (ev : SKUsPage.event) :
  SKUsPage.page_state_ok sys -> enabled sys ev = true -> SKUsPage.page_state_ok (step sys ev).
Proof.
  intros [Hp Ht] Hen.
  destruct ev as [q| | |n|i|b|data|n o].
  - split; assumption.
  - destruct (user_event_needs_directory
                sys SKUsPage.ClickPrevious ltac:(intros; discriminate) Hen)
      as (l & _ & _ & Hr).
    unfold SKUsPage.enabled in Hen. rewrite Hr in Hen.
    apply negb_true_iff, Z.eqb_neq in Hen.
    split; [simpl; lia|assumption].
  - split; [simpl; lia|assumption].
  - destruct (user_event_needs_directory
                sys (SKUsPage.ClickPage n) ltac:(intros; discriminate) Hen)
      as (l & _ & _ & Hr).
    unfold SKUsPage.enabled in Hen. rewrite Hr in Hen.
    apply page_buttons_positive in Hen.
    split; [simpl; lia|assumption].
  - split; assumption.
  - split; assumption.
  - unfold SKUsPage.step. destruct (SKUsPage.form_complete data);
      split; assumption.
  - unfold SKUsPage.step.
    destruct (nth_error (SKUsPage.inflight sys) n) as [r|];
      [|split; assumption].
    unfold SKUsPage.page_state_ok, SKUsPage.run. cbn [SKUsPage.comp].
    destruct (resume_keeps_page r o (SKUsPage.comp sys)) as [Hc Hk].
    rewrite Hc. auto.
Qed.

(** X10: in every run of the page the current page number is at least 1
    (Previous is disabled on page 1 and the numbered buttons start at 1), and
    [allSKUs] is never [undefined] or [null], so reading its [length] never
    throws. *)
Theorem page_number_stays_positive
        (tr : list SKUsPage.event) (sys : SKUsPage.System) :
  exec SKUsPage.init tr = Some sys ->
  1 <= currentPage (SKUsPage.comp sys)
  /\ allSKUs (SKUsPage.comp sys) <> JS.Undefined
  /\ allSKUs (SKUsPage.comp sys) <> JS.Null.
Proof.
  intros Hrun.
  assert (Hok : SKUsPage.page_state_ok sys).
  { assert (Hinit : SKUsPage.page_state_ok SKUsPage.init) by (split; [simpl; lia|auto]).
    revert Hinit Hrun. generalize SKUsPage.init.
    induction tr as [|ev tr IH]; intros s0 H0 Hrun; simpl in Hrun.
    - now inversion Hrun; subst.
    - destruct (SKUsPage.enabled toLowerCase s0 ev) eqn:Hen; [|discriminate].
      eapply IH; [|exact Hrun]. now apply page_state_ok_step. }
  destruct Hok as [Hp Ht]. split; [exact Hp|].
  split; intros E; rewrite E in Ht; discriminate.
Qed.

Lemma number_rows_shown (cur : list iSKU) (index p : Z) (r : SKUsPage.Row) :
  In r (SKUsPage.number_rows cur index p) -> In (SKUsPage.shown r) cur.
Proof.
  revert index; induction cur as [|sku cur IH]; intros index; simpl; [auto|].
  intros [<-|H]; [now left|right; eauto].
Qed.

(** X11: a delete can only be started from a row that is on screen: the id
    sent with the DELETE request is the id of a fetched SKU that matches the
    current search, and starting it changes nothing in the component state. *)
Theorem delete_targets_listed_sku (sys : SKUsPage.System) (i : string) :
  enabled sys (SKUsPage.ClickDelete i) = true ->
  (exists l sku,
      allSKUs (SKUsPage.comp sys) = JS.Arr l
      /\ In sku l
      /\ id sku = i
      /\ matches toLowerCase (searchQuery (SKUsPage.comp sys)) sku = true)
  /\ SKUsPage.inflight (step sys (SKUsPage.ClickDelete i))
     = SKUsPage.inflight sys ++ [DeleteSku i]
  /\ SKUsPage.comp (step sys (SKUsPage.ClickDelete i)) = SKUsPage.comp sys.
Proof.
  intros Hen. split; [|split; reflexivity].
  destruct (user_event_needs_directory
                sys (SKUsPage.ClickDelete i) ltac:(intros; discriminate) Hen)
    as (l & Harr & _ & Hr).
  unfold SKUsPage.enabled in Hen. rewrite Hr in Hen.
  apply existsb_exists in Hen as (r & Hin & Hid).
  apply String.eqb_eq in Hid.
  apply number_rows_shown in Hin.
  unfold getCurrentPageData in Hin.
  assert (Hf : Forall (fun sku => In sku l
                                  /\ matches toLowerCase
                                       (searchQuery (SKUsPage.comp sys)) sku
                                     = true)
                      (JS.slice
                         (filter (matches toLowerCase
                                    (searchQuery (SKUsPage.comp sys))) l)
                         ((currentPage (SKUsPage.comp sys) - 1) * itemsPerPage)
                         ((currentPage (SKUsPage.comp sys) - 1) * itemsPerPage
                          + itemsPerPage))).
  { apply slice_Forall, Forall_forall. intros sku Hs.
    now apply filter_In in Hs. }
  rewrite Forall_forall in Hf. destruct (Hf _ Hin) as [Hl Hm].
  exists l, (SKUsPage.shown r). auto.
Qed.

End PageRuns.

(* ================================================================== *)
(** * The planning page: runs                                          *)
(* ================================================================== *)

Section PlanningRunFacts.

Import Planning.
Import PlanningRuns.

Lemma fetchPlanningData_resume_frame
      (o : outcome (JS.value PlanningRow)) (s : State) :
  stores (Act.state_of (fetchPlanningData_resume o s)) = stores s
  /\ open (Act.state_of (fetchPlanningData_resume o s)) = open s.
Proof. destruct o; split; reflexivity. Qed.

Lemma listed_store_found (store : Store) (l : list Store) :
  existsb (Store_eqb store) l = true ->
  exists found,
    In found l /\ id found = id store
    /\ selectedLabel l (id store) = Some (label found).
Proof.
  unfold selectedLabel. induction l as [|x l IH]; simpl; [discriminate|].
  intros H. destruct (String.eqb_spec (id x) (id store)) as [E|N].
  - exists x. simpl. auto.
  - apply orb_true_iff in H as [H|H].
    + unfold Store_eqb in H. repeat (apply andb_true_iff in H as [H _]).
      apply String.eqb_eq in H. congruence.
    + destruct (IH H) as (found & Hin & Hid & Hl). exists found. auto.
Qed.

Lemma select_needs_listed (sys : System) (store : Store) :
  enabled sys (Select store) = true ->
  exists l, stores (comp sys) = JS.Arr l
            /\ existsb (Store_eqb store) l = true.
Proof.
  unfold enabled, renderSelector.
  destruct (loading (comp sys)); [discriminate|].
  destruct (stores (comp sys)) as [| |l|]; try discriminate.
  destruct (open (comp sys)); [|discriminate].
  intros H. now exists l.
Qed.

Lemma run_invariant_init : run_invariant init.
Proof.
  split; [apply serial_init|]. split; [|split].
  - intros x [H|[]]. discriminate.
  - intros _. reflexivity.
  - intros H. now contradiction H.
Qed.

Lemma run_invariant_step (sys : System) (ev : event) :
  run_invariant sys -> enabled sys ev = true -> run_invariant (step sys ev).
Proof.
  intros (Hs & Hf & Hfirst & Hl) Hen.
  split; [now apply serial_step|].
  destruct ev as [b|store|o|y o].
  - (* the popover opens or closes *)
    pose proof (open_needs_selector _ _ Hen) as Hload.
    destruct Hs as [Hq _]. specialize (Hq Hload).
    destruct sys as [c fl]. simpl in *. subst fl.
    split; [|split].
    + intros x [].
    + intros [].
    + exact Hl.
  - (* an item is chosen *)
    pose proof (select_needs_selector _ _ Hen) as Hload.
    destruct (select_needs_listed _ _ Hen) as (l & Hst & Hex).
    destruct (listed_store_found _ _ Hex) as (found & Hin & Hid & Hlab).
    destruct Hs as [Hq _]. specialize (Hq Hload).
    rewrite step_select. cbv zeta. rewrite Hq.
    destruct (String.eqb_spec (id store) (value (comp sys))) as [E|N].
    + (* the selected store again: the selection is cleared *)
      destruct (String.eqb (value (comp sys)) ""); simpl;
        (split; [intros x []|split; [intros []|intros H; now contradiction H]]).
    + (* another store *)
      assert (Hlisted :
                exists l0 st,
                  stores (comp sys) = JS.Arr l0 /\ In st l0
                  /\ id st = id store
                  /\ selectedLabel l0 (id store) = Some (label st))
        by (exists l, found; auto).
      destruct (String.eqb_spec (value (comp sys)) (id store)) as [E'|_];
        [congruence|].
      destruct (id store) as [|c0 rest] eqn:Hidstore; simpl.
      * split; [intros x []|split; [intros []|intros H; now contradiction H]].
      * split; [|split].
        -- intros x [H|[]]. inversion H; subst x. split; [reflexivity|].
           discriminate.
        -- intros [H|[]]. discriminate.
        -- intros _. exact Hlisted.
  - (* the stores arrive, or fail to *)
    destruct (settle_the_one GetStores sys Hs Hen) as [Hone Hnil].
    destruct (fetchStores_resume_quiet o (comp (settle GetStores sys)))
      as (_ & Hr & Hv & _).
    assert (Hempty : value (comp sys) = "")
      by (apply Hfirst; rewrite Hone; now left).
    unfold step, run, fetches_selected, stores_first, selection_listed.
    cbn [comp inflight]. rewrite Hnil, Hr, Hv. cbn [settle comp].
    split; [intros x []|split; [intros []|intros H; now contradiction H]].
  - (* a planning fetch settles *)
    destruct (settle_the_one (GetPlanning y) sys Hs Hen) as [Hone Hnil].
    destruct (fetchPlanningData_resume_quiet
                o (comp (settle (GetPlanning y) sys))) as (_ & Hr & Hv).
    destruct (fetchPlanningData_resume_frame
                o (comp (settle (GetPlanning y) sys))) as (Hst & _).
    unfold step, run, fetches_selected, stores_first, selection_listed.
    cbn [comp inflight]. rewrite Hnil, Hr, Hv, Hst. cbn [settle comp].
    split; [intros x []|split; [intros []|exact Hl]].
Qed.

Lemma run_invariant_exec (sys sys' : System) (tr : list event) :
  run_invariant sys -> exec sys tr = Some sys' -> run_invariant sys'.
Proof.
  revert sys; induction tr as [|ev tr IH]; intros sys Hi H.
  - simpl in H. now inversion H; subst.
  - apply exec_cons in H as [Hen H]. eauto using run_invariant_step.
Qed.

(** X12: in every run of the planning page at most one request is in flight,
    and while one is in flight the selector is replaced by the loading line,
    so neither the popover nor an item can be reached. *)
Theorem one_request_at_a_time (tr : list event) (sys : System) :
  exec init tr = Some sys ->
  (List.length (inflight sys) <= 1)%nat
  /\ (inflight sys <> [] ->
      renderSelector (comp sys) = Some LoadingStores
      /\ forall b store,
           enabled sys (OpenChange b) = false
           /\ enabled sys (Select store) = false).
Proof.
  intros Hrun.
  destruct (serial_exec _ _ _ serial_init Hrun) as [Hq Hlen].
  split; [exact Hlen|]. intros Hne.
  assert (Hload : loading (comp sys) = true).
  { destruct (loading (comp sys)); [reflexivity|]. now contradiction Hne; auto. }
  unfold enabled, renderSelector. rewrite Hload. auto.
Qed.

(** X13: in every run, a planning fetch in flight is for the store that is
    selected at that moment, and is never issued for the empty id. *)
Theorem fetch_is_for_selection (tr : list event) (sys : System) :
  exec init tr = Some sys ->
  forall storeId,
    In (GetPlanning storeId) (inflight sys) ->
    storeId = value (comp sys) /\ storeId <> "".
Proof.
  intros Hrun.
  now destruct (run_invariant_exec _ _ _ run_invariant_init Hrun)
    as (_ & Hf & _).
Qed.

(** X14: in every run, a selected store is one of the fetched stores: once the
    selector is on screen again its button shows that store's label, never a
    blank. *)
Theorem selected_store_has_label (tr : list event) (sys : System) :
  exec init tr = Some sys ->
  value (comp sys) <> "" ->
  exists l store,
    stores (comp sys) = JS.Arr l
    /\ In store l
    /\ id store = value (comp sys)
    /\ (loading (comp sys) = false ->
        renderSelector (comp sys)
        = Some (Combobox (Some (label store)) (open (comp sys)) l)).
Proof.
  intros Hrun Hv.
  destruct (run_invariant_exec _ _ _ run_invariant_init Hrun)
    as (_ & _ & _ & Hl).
  destruct (Hl Hv) as (l & store & Hst & Hin & Hid & Hlab).
  exists l, store. repeat split; auto.
  intros Hload. unfold renderSelector.
  rewrite Hload, Hst, truthy_string_nonempty, Hlab by assumption.
  reflexivity.
Qed.

(** X15: nothing is cached.  In every run, choosing a store other than the
    selected one issues exactly one fetch for it, even when its rows were
    fetched before; until that fetch settles the loading line is shown and
    the table still holds the rows that were there, now under the new
    selection. *)
Theorem every_selection_fetches
        (tr : list event) (sys : System) (store : Store) :
  exec init tr = Some sys ->
  enabled sys (Select store) = true ->
  id store <> value (comp sys) ->
  id store <> "" ->
  let sys' := step sys (Select store) in
  inflight sys = []
  /\ inflight sys' = [GetPlanning (id store)]
  /\ value (comp sys') = id store
  /\ renderSelector (comp sys') = Some LoadingStores
  /\ skuData (comp sys') = skuData (comp sys)
  /\ renderBody (comp sys') = PlanningSKU (skuData (comp sys)).
Proof.
  intros Hrun Hen Hne Hid. cbv zeta.
  destruct (serial_exec _ _ _ serial_init Hrun) as [Hq _].
  specialize (Hq (select_needs_selector _ _ Hen)).
  rewrite step_select. cbv zeta. rewrite Hq.
  apply String.eqb_neq in Hne as Hne1. rewrite Hne1.
  assert (Hne2 : String.eqb (value (comp sys)) (id store) = false)
    by (apply String.eqb_neq; congruence).
  rewrite Hne2, truthy_string_nonempty by assumption.
  unfold renderBody, renderSelector. cbn.
  rewrite truthy_string_nonempty by assumption. repeat split.
Qed.

(** X16: when a planning fetch is rejected, in any run, the error goes to the
    console and nothing is retried: the rows held before stay in [skuData] and
    stay on screen under the store that is now selected, and the selector
    comes back. *)
Theorem failed_fetch_keeps_old_rows
        (tr : list event) (sys : System) (storeId : string) :
  exec init tr = Some sys ->
  enabled sys (PlanningSettled storeId Rejected) = true ->
  let sys' := step sys (PlanningSettled storeId Rejected) in
  value (comp sys') = storeId
  /\ inflight sys' = []
  /\ loading (comp sys') = false
  /\ skuData (comp sys') = skuData (comp sys)
  /\ renderBody (comp sys') = PlanningSKU (skuData (comp sys))
  /\ Act.effects_of
       (fetchPlanningData_resume Rejected (comp sys))
     = [ConsoleError "Error fetching planning data:"].
Proof.
  intros Hrun Hen. cbv zeta.
  destruct (run_invariant_exec _ _ _ run_invariant_init Hrun)
    as (Hs & Hf & _).
  destruct (settle_the_one (GetPlanning storeId) sys Hs Hen) as [Hone Hnil].
  destruct (Hf storeId) as [Hv Hne]; [rewrite Hone; now left|].
  unfold step, run, renderBody. cbn [comp inflight]. rewrite Hnil.
  cbn. rewrite <- Hv, truthy_string_nonempty by assumption.
  repeat split.
Qed.

Lemma no_stores_step (sys : System) (ev : event) :
  no_stores sys -> enabled sys ev = true -> no_stores (step sys ev).
Proof.
  intros (Hst & Hv & Hfl) Hen.
  destruct sys as [[o v st ld rows] fl]. simpl in *. subst.
  destruct ev as [b|store|o'|y o']; try discriminate.
  - repeat split.
  - unfold enabled, renderSelector in Hen. simpl in Hen.
    destruct ld; [discriminate|]. destruct o; discriminate.
Qed.

(** X17: if the stores fetch is rejected there is no way forward: in every
    continuation of the run the list of stores stays empty, nothing can be
    selected, no request is ever issued again, and the view keeps showing the
    placeholder. *)
Theorem failed_stores_fetch_is_final (tr : list event) (sys : System) :
  exec init (StoresSettled Rejected :: tr) = Some sys ->
  stores (comp sys) = JS.Arr []
  /\ value (comp sys) = ""
  /\ inflight sys = []
  /\ renderBody (comp sys) = Text "Select a store"
  /\ Forall (fun ev => is_select ev = false) tr.
Proof.
  intros Hrun. apply exec_cons in Hrun as [_ Hrun].
  assert (H0 : no_stores (step init (StoresSettled Rejected)))
    by (repeat split).
  revert H0 Hrun. generalize (step init (StoresSettled Rejected)).
  induction tr as [|ev tr IH]; intros s0 H0 Hrun.
  - simpl in Hrun. inversion Hrun; subst.
    destruct H0 as (Hst & Hv & Hfl). unfold renderBody. rewrite Hv.
    repeat split; auto.
  - apply exec_cons in Hrun as [Hen Hrun].
    destruct (IH _ (no_stores_step _ _ H0 Hen) Hrun)
      as (Hst & Hv & Hfl & Hb & Hall).
    repeat split; auto. constructor; [|exact Hall].
    destruct ev; try reflexivity.
    destruct H0 as (Hst0 & _ & _).
    destruct (select_needs_listed _ _ Hen) as (l & Hl & Hex).
    rewrite Hst0 in Hl. inversion Hl; subst l. discriminate.
Qed.

(** X18: a fulfilled GET /stores whose body is an object with an array under
    [stores], or a bare array, makes exactly those stores the items of the
    combobox, in order; a body that is an object whose [stores] property is
    missing, [null] or [undefined] is stored whole and the render that
    follows throws. *)
Theorem fetchStores_shapes
        (l : list Store) (props bad : list (string * JS.value Store))
        (s : State) :
  JS.assoc "stores" props = Some (JS.Arr l) ->
  SKUsPage.falsy_property (JS.Obj bad) "stores" ->
  value s = "" ->
  renderSelector (Act.state_of (fetchStores_resume (Fulfilled (JS.Obj props)) s))
  = Some (Combobox (Some "Select store...") (open s) l)
  /\ renderSelector (Act.state_of (fetchStores_resume (Fulfilled (JS.Arr l)) s))
     = Some (Combobox (Some "Select store...") (open s) l)
  /\ stores (Act.state_of (fetchStores_resume (Fulfilled (JS.Obj bad)) s))
     = JS.Obj bad
  /\ render (Act.state_of (fetchStores_resume (Fulfilled (JS.Obj bad)) s))
     = None.
Proof.
  intros Hp (x & Hget & Hfalsy) Hv.
  unfold fetchStores_resume, Act.try_finally, Act.try_catch, Act.bind,
    Act.await, Act.prop, Act.ret, Act.update, render, renderSelector.
  rewrite Hget. unfold JS.get. rewrite Hp. unfold JS.or. rewrite Hfalsy.
  cbn. rewrite Hv. repeat split.
Qed.

End PlanningRunFacts.

(* ================================================================== *)
(** * The sidebar                                                      *)
(* ================================================================== *)

(** X19: whatever the location, at most one entry of the sidebar is drawn as
    active, and exactly one when the path is that of a route; the label of
    every entry is shown when the sidebar is expanded and moved to the hover
    tooltip when it is collapsed. *)
Theorem sidebar_one_active (pathname : string) (isCollapsed : bool) :
  (List.length (filter Sidebar.active (Sidebar.render pathname isCollapsed))
   <= 1)%nat
  /\ (List.length (filter Sidebar.active (Sidebar.render pathname isCollapsed))
      = (if existsb (String.eqb pathname) (map Sidebar.path Sidebar.routes)
         then 1 else 0)%nat)
  /\ Forall (fun e =>
               if isCollapsed
               then Sidebar.text e = None /\ Sidebar.tooltip e <> None
               else Sidebar.text e <> None /\ Sidebar.tooltip e = None)
            (Sidebar.render pathname isCollapsed).
Proof.
  assert (Hcount :
            List.length
              (filter Sidebar.active (Sidebar.render pathname isCollapsed))
            = (if existsb (String.eqb pathname)
                          (map Sidebar.path Sidebar.routes)
               then 1 else 0)%nat).
  { unfold Sidebar.render, Sidebar.routes, Sidebar.isActive. cbn.
    destruct (String.eqb_spec pathname "/store") as [->|]; [reflexivity|].
    destruct (String.eqb_spec pathname "/charts") as [->|]; [reflexivity|].
    destruct (String.eqb_spec pathname "/planning") as [->|]; [reflexivity|].
    destruct (String.eqb_spec pathname "/skus") as [->|]; reflexivity. }
  split; [|split].
  - rewrite Hcount. destruct (existsb _ _); lia.
  - exact Hcount.
  - unfold Sidebar.render, Sidebar.routes.
    destruct isCollapsed; repeat constructor; discriminate.
Qed.

Section MoreRuns.

Variable toLowerCase : string -> string.
Variable parseFloat : string -> Q.

(** X20: typing into the search box does not reset the page number.  On any
    page after the first, a search with at most ten matches therefore shows
    an empty table, whether or not something matches. *)
Theorem search_keeps_page
        (sys : SKUsPage.System) (q : string) (l : list SKUs.iSKU) :
  SKUs.allSKUs (SKUsPage.comp sys) = JS.Arr l ->
  SKUs.loading (SKUsPage.comp sys) = false ->
  2 <= SKUs.currentPage (SKUsPage.comp sys) ->
  (List.length (SKUs.filteredStores toLowerCase l q) <= 10)%nat ->
  let sys' := SKUsPage.step parseFloat sys (SKUsPage.TypeSearch q) in
  SKUs.currentPage (SKUsPage.comp sys') = SKUs.currentPage (SKUsPage.comp sys)
  /\ SKUsPage.inflight sys' = SKUsPage.inflight sys
  /\ SKUsPage.render toLowerCase (SKUsPage.comp sys')
     = Some (SKUsPage.Directory
               q (SKUs.isDrawerOpen (SKUsPage.comp sys)) []
               (SKUsPage.page_buttons
                  (SKUs.totalPages l) (SKUs.currentPage (SKUsPage.comp sys)))
               false
               (SKUs.currentPage (SKUsPage.comp sys) =? SKUs.totalPages l)).
Proof.
  intros Harr Hload Hp Hfew. cbv zeta.
  destruct sys as [[all ld cp sq dr] fl]. simpl in *. subst all ld.
  unfold SKUsPage.step, SKUsPage.run, SKUsPage.render. cbn.
  rewrite app_nil_r.
  assert (Hempty : SKUs.getCurrentPageData toLowerCase l q cp = []).
  { apply length_zero_iff_nil.
    pose proof (pageData_length toLowerCase l q cp ltac:(lia)). lia. }
  rewrite Hempty.
  replace (cp =? 1) with false by (symmetry; apply Z.eqb_neq; lia).
  repeat split.
Qed.

End MoreRuns.

(** X21: the planning rows are passed through untouched and change only when a
    planning fetch is fulfilled: after such an event [skuData] is the body of
    the response, after every other event it is what it was. *)
Theorem rows_change_only_on_fulfilled_fetch
        (sys : Planning.System) (ev : Planning.event) :
  Planning.skuData (Planning.comp (Planning.step sys ev))
  = match ev with
    | Planning.PlanningSettled _ (Fulfilled data) => data
    | _ => Planning.skuData (Planning.comp sys)
    end.
Proof.
  destruct ev as [b|store|o|y o].
  - reflexivity.
  - rewrite step_select. cbv zeta.
    destruct (String.eqb _ _); [reflexivity|].
    destruct (JS.truthy_string _); reflexivity.
  - unfold Planning.step, Planning.run. cbn [Planning.comp].
    now destruct (fetchStores_resume_quiet
                    o (Planning.comp (Planning.settle Planning.GetStores sys)))
      as (_ & _ & _ & H).
  - destruct o; reflexivity.
Qed.

Lemma on_page_two_reachable :
  SKUsPage.exec JS.toLowerCase_ascii Sample.parseFloat_digit SKUsPage.init
                [SKUsPage.Settled 0 (Fulfilled (JS.Arr Sample.eleven));
                 SKUsPage.ClickNext]
  = Some Sample.on_page_two
  /\ SKUs.filteredStores JS.toLowerCase_ascii Sample.eleven "item a"
     = [SKUs.mkSKU "A" "Item A" "Tools" "Hardware" (20 # 1) (10 # 1)].
Proof. split; reflexivity. Qed.

Lemma search_keeps_page_witness :
  SKUs.allSKUs (SKUsPage.comp Sample.on_page_two)
  = JS.Arr Sample.eleven
  /\ SKUs.loading (SKUsPage.comp Sample.on_page_two) = false
  /\ 2 <= SKUs.currentPage (SKUsPage.comp Sample.on_page_two)
  /\ (List.length
        (SKUs.filteredStores JS.toLowerCase_ascii
                             Sample.eleven "item a")
      <= 10)%nat
  /\ (let sys' := SKUsPage.step Sample.parseFloat_digit Sample.on_page_two
                                (SKUsPage.TypeSearch "item a") in
      SKUs.currentPage (SKUsPage.comp sys')
      = SKUs.currentPage (SKUsPage.comp Sample.on_page_two)
      /\ SKUsPage.inflight sys' = SKUsPage.inflight Sample.on_page_two
      /\ SKUsPage.render JS.toLowerCase_ascii (SKUsPage.comp sys')
         = Some (SKUsPage.Directory
                   "item a"
                   (SKUs.isDrawerOpen (SKUsPage.comp Sample.on_page_two)) []
                   (SKUsPage.page_buttons
                      (SKUs.totalPages Sample.eleven)
                      (SKUs.currentPage (SKUsPage.comp Sample.on_page_two)))
                   false
                   (SKUs.currentPage (SKUsPage.comp Sample.on_page_two)
                    =? SKUs.totalPages Sample.eleven))).
Proof.
  split; [reflexivity|]. split; [reflexivity|]. split; [simpl; lia|].
  split; [simpl; lia|].
  apply (search_keeps_page
           JS.toLowerCase_ascii Sample.parseFloat_digit
           Sample.on_page_two "item a" Sample.eleven);
    [reflexivity|reflexivity|simpl; lia|simpl; lia].
Defined.

(* ================================================================== *)
(** * Instances on the sample data                                     *)
(* ================================================================== *)

Lemma page_number_stays_positive_witness :
  SKUsPage.exec JS.toLowerCase_ascii Sample.parseFloat_digit
                SKUsPage.init Sample.directory_run
  = Some Sample.directory_searched
  /\ (1 <= SKUs.currentPage (SKUsPage.comp Sample.directory_searched)
      /\ SKUs.allSKUs (SKUsPage.comp Sample.directory_searched)
         <> JS.Undefined
      /\ SKUs.allSKUs (SKUsPage.comp Sample.directory_searched) <> JS.Null).
Proof.
  split; [reflexivity|].
  apply (page_number_stays_positive
           JS.toLowerCase_ascii Sample.parseFloat_digit
           Sample.directory_run Sample.directory_searched).
  reflexivity.
Defined.

Lemma delete_targets_listed_sku_witness :
  SKUsPage.enabled JS.toLowerCase_ascii Sample.directory_searched
                   (SKUsPage.ClickDelete "S1") = true
  /\ ((exists l sku,
          SKUs.allSKUs (SKUsPage.comp Sample.directory_searched) = JS.Arr l
          /\ In sku l
          /\ SKUs.id sku = "S1"
          /\ SKUs.matches
               JS.toLowerCase_ascii
               (SKUs.searchQuery (SKUsPage.comp Sample.directory_searched))
               sku
             = true)
      /\ SKUsPage.inflight
           (SKUsPage.step Sample.parseFloat_digit Sample.directory_searched
                          (SKUsPage.ClickDelete "S1"))
         = SKUsPage.inflight Sample.directory_searched ++ [SKUs.DeleteSku "S1"]
      /\ SKUsPage.comp
           (SKUsPage.step Sample.parseFloat_digit Sample.directory_searched
                          (SKUsPage.ClickDelete "S1"))
         = SKUsPage.comp Sample.directory_searched).
Proof.
  split; [reflexivity|].
  apply (delete_targets_listed_sku
           JS.toLowerCase_ascii Sample.parseFloat_digit
           Sample.directory_searched "S1").
  reflexivity.
Defined.

Lemma one_request_at_a_time_witness :
  Planning.exec Planning.init
                (Sample.before_A ++ [Planning.Select Sample.storeA])
  = Some Sample.loading_A
  /\ ((List.length (Planning.inflight Sample.loading_A) <= 1)%nat
      /\ (Planning.inflight Sample.loading_A <> [] ->
          Planning.renderSelector (Planning.comp Sample.loading_A)
          = Some Planning.LoadingStores
          /\ forall b store,
               Planning.enabled Sample.loading_A (Planning.OpenChange b)
               = false
               /\ Planning.enabled Sample.loading_A (Planning.Select store)
                  = false)).
Proof.
  split; [reflexivity|].
  apply (one_request_at_a_time
           (Sample.before_A ++ [Planning.Select Sample.storeA])
           Sample.loading_A).
  reflexivity.
Defined.

Lemma fetch_is_for_selection_witness :
  Planning.exec Planning.init
                (Sample.before_A ++ [Planning.Select Sample.storeA])
  = Some Sample.loading_A
  /\ In (Planning.GetPlanning "ST035") (Planning.inflight Sample.loading_A)
  /\ ("ST035" = Planning.value (Planning.comp Sample.loading_A)
      /\ "ST035" <> "").
Proof.
  split; [reflexivity|]. split; [left; reflexivity|].
  apply (fetch_is_for_selection
           (Sample.before_A ++ [Planning.Select Sample.storeA])
           Sample.loading_A eq_refl "ST035").
  left; reflexivity.
Defined.

Lemma selected_store_has_label_witness :
  Planning.exec Planning.init
                (Sample.before_A
                 ++ Planning.Select Sample.storeA :: Sample.between_A_and_B)
  = Some Sample.showing_A
  /\ Planning.value (Planning.comp Sample.showing_A) <> ""
  /\ (exists l store,
         Planning.stores (Planning.comp Sample.showing_A) = JS.Arr l
         /\ In store l
         /\ Planning.id store = Planning.value (Planning.comp Sample.showing_A)
         /\ (Planning.loading (Planning.comp Sample.showing_A) = false ->
             Planning.renderSelector (Planning.comp Sample.showing_A)
             = Some (Planning.Combobox
                       (Some (Planning.label store))
                       (Planning.open (Planning.comp Sample.showing_A)) l))).
Proof.
  split; [reflexivity|]. split; [discriminate|].
  apply (selected_store_has_label
           (Sample.before_A
            ++ Planning.Select Sample.storeA :: Sample.between_A_and_B)
           Sample.showing_A);
    [reflexivity|discriminate].
Defined.

Lemma every_selection_fetches_witness :
  Planning.exec Planning.init Sample.before_A = Some Sample.choosing
  /\ Planning.enabled Sample.choosing (Planning.Select Sample.storeA) = true
  /\ Planning.id Sample.storeA <> Planning.value (Planning.comp Sample.choosing)
  /\ Planning.id Sample.storeA <> ""
  /\ (let sys' := Planning.step Sample.choosing
                                (Planning.Select Sample.storeA) in
      Planning.inflight Sample.choosing = []
      /\ Planning.inflight sys'
         = [Planning.GetPlanning (Planning.id Sample.storeA)]
      /\ Planning.value (Planning.comp sys') = Planning.id Sample.storeA
      /\ Planning.renderSelector (Planning.comp sys')
         = Some Planning.LoadingStores
      /\ Planning.skuData (Planning.comp sys')
         = Planning.skuData (Planning.comp Sample.choosing)
      /\ Planning.renderBody (Planning.comp sys')
         = Planning.PlanningSKU
             (Planning.skuData (Planning.comp Sample.choosing))).
Proof.
  split; [reflexivity|]. split; [reflexivity|].
  split; [discriminate|]. split; [discriminate|].
  apply (every_selection_fetches
           Sample.before_A Sample.choosing Sample.storeA);
    [reflexivity|reflexivity|discriminate|discriminate].
Defined.

Lemma failed_fetch_keeps_old_rows_witness :
  Planning.exec Planning.init
                (Sample.before_A ++ [Planning.Select Sample.storeA])
  = Some Sample.loading_A
  /\ Planning.enabled Sample.loading_A
                      (Planning.PlanningSettled "ST035" Rejected) = true
  /\ (let sys' := Planning.step Sample.loading_A
                                (Planning.PlanningSettled "ST035" Rejected) in
      Planning.value (Planning.comp sys') = "ST035"
      /\ Planning.inflight sys' = []
      /\ Planning.loading (Planning.comp sys') = false
      /\ Planning.skuData (Planning.comp sys')
         = Planning.skuData (Planning.comp Sample.loading_A)
      /\ Planning.renderBody (Planning.comp sys')
         = Planning.PlanningSKU
             (Planning.skuData (Planning.comp Sample.loading_A))
      /\ Act.effects_of
           (Planning.fetchPlanningData_resume
              Rejected (Planning.comp Sample.loading_A))
         = [ConsoleError "Error fetching planning data:"]).
Proof.
  split; [reflexivity|]. split; [reflexivity|].
  apply (failed_fetch_keeps_old_rows
           (Sample.before_A ++ [Planning.Select Sample.storeA])
           Sample.loading_A "ST035");
    reflexivity.
Defined.

Lemma failed_stores_fetch_is_final_witness :
  Planning.exec Planning.init
                [Planning.StoresSettled Rejected;
                 Planning.OpenChange true; Planning.OpenChange false]
  = Some Sample.without_stores
  /\ (Planning.stores (Planning.comp Sample.without_stores) = JS.Arr []
      /\ Planning.value (Planning.comp Sample.without_stores) = ""
      /\ Planning.inflight Sample.without_stores = []
      /\ Planning.renderBody (Planning.comp Sample.without_stores)
         = Planning.Text "Select a store"
      /\ Forall (fun ev => Planning.is_select ev = false)
                [Planning.OpenChange true; Planning.OpenChange false]).
Proof.
  split; [reflexivity|].
  apply (failed_stores_fetch_is_final
           [Planning.OpenChange true; Planning.OpenChange false]
           Sample.without_stores).
  reflexivity.
Defined.

Lemma fetchStores_shapes_witness :
  JS.assoc "stores" [("stores", JS.Arr [Sample.storeA; Sample.storeB])]
  = Some (JS.Arr [Sample.storeA; Sample.storeB])
  /\ SKUsPage.falsy_property
       (JS.Obj [("message", JS.Arr [Sample.storeA])]) "stores"
  /\ Planning.value Planning.initial = ""
  /\ (Planning.renderSelector
        (Act.state_of
           (Planning.fetchStores_resume
              (Fulfilled
                 (JS.Obj [("stores", JS.Arr [Sample.storeA; Sample.storeB])]))
              Planning.initial))
      = Some (Planning.Combobox
                (Some "Select store...") (Planning.open Planning.initial)
                [Sample.storeA; Sample.storeB])
      /\ Planning.renderSelector
           (Act.state_of
              (Planning.fetchStores_resume
                 (Fulfilled (JS.Arr [Sample.storeA; Sample.storeB]))
                 Planning.initial))
         = Some (Planning.Combobox
                   (Some "Select store...") (Planning.open Planning.initial)
                   [Sample.storeA; Sample.storeB])
      /\ Planning.stores
           (Act.state_of
              (Planning.fetchStores_resume
                 (Fulfilled (JS.Obj [("message", JS.Arr [Sample.storeA])]))
                 Planning.initial))
         = JS.Obj [("message", JS.Arr [Sample.storeA])]
      /\ Planning.render
           (Act.state_of
              (Planning.fetchStores_resume
                 (Fulfilled (JS.Obj [("message", JS.Arr [Sample.storeA])]))
                 Planning.initial))
         = None).
Proof.
  assert (H : SKUsPage.falsy_property
                (JS.Obj [("message", JS.Arr [Sample.storeA])]) "stores")
    by (exists JS.Undefined; split; reflexivity).
  split; [reflexivity|]. split; [exact H|]. split; [reflexivity|].
  apply (fetchStores_shapes
           [Sample.storeA; Sample.storeB]
           [("stores", JS.Arr [Sample.storeA; Sample.storeB])]
           [("message", JS.Arr [Sample.storeA])]
           Planning.initial);
    [reflexivity|exact H|reflexivity].
Defined.
